(** * Sparkify ETL notebook (etl.ipynb): shallow embedding and verification

    The notebook reads song-catalog files and activity-log files with
    pandas, projects the data frames onto the rows of the star schema
    (songs, artists, time, users, songplays) and hands them to PostgreSQL
    through psycopg2.  Data frames are modelled as lists of row records,
    the cells of the notebook as functions on them, the database session
    as an explicit store that is threaded through the songplay loop. *)

From Stdlib Require Import ZArith List String Ascii Bool Lia.
From Stdlib Require Import Floats.PrimFloat.
Set Warnings "-inexact-float".
Import ListNotations.
Open Scope string_scope.
Open Scope Z_scope.

(** ** Calendar arithmetic behind [pd.to_datetime(..., unit='ms')]

    pandas stores an instant as a count since 1970-01-01T00:00:00 and
    splits it into a proleptic Gregorian date and a time of day.  The
    functions below follow the integer algorithms of that library. *)
Module Calendar.

Definition is_leapyear (year : Z) : bool :=
  (year mod 4 =? 0) && (negb (year mod 100 =? 0) || (year mod 400 =? 0)).

(** Days in the 400-year cycle: 400 * 365 + 100 - 4 + 1. *)
Definition days_per_400years : Z := 146097.

(** Year and zero-based day of the year of a day count since 1970-01-01.
    The count is made relative to 2000-01-01, split into 400-year cycles,
    then into centuries, four-year groups and years. *)
Definition days_to_yearsdays (days0 : Z) : Z * Z :=
  let days := days0 - (365 * 30 + 7) in
  let year := 400 * (days / days_per_400years) in
  let days := days mod days_per_400years in
  let '(year, days) :=
    if days >=? 366 then
      let year := year + 100 * ((days - 1) / (100 * 365 + 25 - 1)) in
      let days := (days - 1) mod (100 * 365 + 25 - 1) in
      if days >=? 365 then
        let year := year + 4 * ((days + 1) / (4 * 365 + 1)) in
        let days := (days + 1) mod (4 * 365 + 1) in
        if days >=? 366 then (year + (days - 1) / 365, (days - 1) mod 365)
        else (year, days)
      else (year, days)
    else (year, days) in
  (year + 2000, days).

Definition days_per_month_table (leap : bool) : list Z :=
  if leap then [31; 29; 31; 30; 31; 30; 31; 31; 30; 31; 30; 31]
  else [31; 28; 31; 30; 31; 30; 31; 31; 30; 31; 30; 31].

(** The month loop: walk the table of month lengths, subtracting each
    length until the remaining day count fits in the month.  [i] is the
    zero-based index of the head of [month_lengths]. *)
Fixpoint find_month (month_lengths : list Z) (i days : Z) : Z * Z :=
  match month_lengths with
  | [] => (i, days + 1)
  | len :: rest =>
      if days <? len then (i + 1, days + 1)
      else find_month rest (i + 1) (days - len)
  end.

(** (year, month, day) of a day count since 1970-01-01. *)
Definition civil_of_days (days : Z) : Z * Z * Z :=
  let '(y, doy) := days_to_yearsdays days in
  let '(m, d) := find_month (days_per_month_table (is_leapyear y)) 0 doy in
  (y, m, d).

(** Cumulative month offsets used for the day of the year. *)
Definition month_offset (leap : bool) (month : Z) : Z :=
  nth (Z.to_nat (month - 1))
      (if leap
       then [0; 31; 60; 91; 121; 152; 182; 213; 244; 274; 305; 335; 366]
       else [0; 31; 59; 90; 120; 151; 181; 212; 243; 273; 304; 334; 365]) 0.

Definition get_day_of_year (year month day : Z) : Z :=
  month_offset (is_leapyear year) month + day.

(** Day of the week by Sakamoto's method, converted to the Python
    numbering 0 = Monday .. 6 = Sunday. *)
Definition sakamoto_arr (month : Z) : Z :=
  nth (Z.to_nat (month - 1)) [0; 3; 2; 5; 0; 3; 5; 1; 4; 6; 2; 4] 0.

Definition dayofweek (y m d : Z) : Z :=
  let y := if m <? 3 then y - 1 else y in
  let day := (y + y / 4 - y / 100 + y / 400 + sakamoto_arr m + d) mod 7 in
  (day + 6) mod 7.

(** ISO 8601 week number: an estimate from the day of the year and the
    weekday, then the correction at either end of the year. *)
Definition get_week_of_year (year month day : Z) : Z :=
  let doy := get_day_of_year year month day in
  let dow := dayofweek year month day in
  let iso_week := (doy - 1) - dow + 3 in
  let iso_week := if iso_week >=? 0 then iso_week / 7 + 1 else iso_week in
  if iso_week <? 0 then
    if (iso_week >? -2) || ((iso_week =? -2) && is_leapyear (year - 1))
    then 53 else 52
  else if iso_week =? 53 then
    if 31 - day + dow <? 3 then 1 else iso_week
  else iso_week.

(** *** Reference definitions: the proleptic ordinal of the Python
    standard library (day 1 is 0001-01-01, a Monday). *)
Definition days_before_year (year : Z) : Z :=
  let y := year - 1 in
  y * 365 + y / 4 - y / 100 + y / 400.

Definition days_in_month (year month : Z) : Z :=
  nth (Z.to_nat (month - 1)) (days_per_month_table (is_leapyear year)) 0.

Definition days_before_month (year month : Z) : Z :=
  month_offset (is_leapyear year) month.

Definition ymd2ord (year month day : Z) : Z :=
  days_before_year year + days_before_month year month + day.

Definition year_length (year : Z) : Z :=
  if is_leapyear year then 366 else 365.

(** A date of the calendar: a month of the year and a day of that month. *)
Definition valid_date (y m d : Z) : Prop :=
  1 <= m <= 12 /\ 1 <= d <= days_in_month y m.

(** Ordinal of 1970-01-01. *)
Definition epoch_ordinal : Z := 719163.

(** Python's [date.weekday()]. *)
Definition weekday_of_ordinal (ord : Z) : Z := (ord + 6) mod 7.

(** ISO 8601 says: weeks run from Monday to Sunday, a week belongs to the
    year that holds its Thursday, and weeks are counted from 1 within
    that year.  [days_before_year y + 1] is the ordinal of 1 January of
    [y] and [days_before_year (y + 1)] that of its 31 December. *)
Definition is_iso_week (ord week : Z) : Prop :=
  let thursday := ord - weekday_of_ordinal ord + 3 in
  exists y : Z,
    days_before_year y < thursday <= days_before_year (y + 1) /\
    week = (thursday - (days_before_year y + 1)) / 7 + 1.

(** The same, computed. *)
Definition iso_week_of_ordinal (ord : Z) : Z :=
  let thursday := ord - weekday_of_ordinal ord + 3 in
  let '(y, doy) := days_to_yearsdays (thursday - epoch_ordinal) in
  doy / 7 + 1.

End Calendar.

(** ** pandas timestamps *)
Module Pandas.

(** A [Timestamp] obtained from a whole number of milliseconds: the
    broken-down fields of the instant (its nanosecond part is zero). *)
Record Timestamp : Type := mkTimestamp {
  year : Z; month : Z; day : Z;
  hour : Z; minute : Z; second : Z; microsecond : Z
}.

(** Splitting a millisecond count: the days go through the calendar, the
    rest of the day is peeled into hours, minutes, seconds, microseconds. *)
Definition Timestamp_of_ms (ms : Z) : Timestamp :=
  let perday := 24 * 60 * 60 * 1000 in
  let '(y, m, d) := Calendar.civil_of_days (ms / perday) in
  let dt := ms mod perday in
  let h := dt / (1000 * 60 * 60) in
  let dt := dt mod (1000 * 60 * 60) in
  let mi := dt / (1000 * 60) in
  let dt := dt mod (1000 * 60) in
  let s := dt / 1000 in
  let dt := dt mod 1000 in
  mkTimestamp y m d h mi s (dt * 1000).

(** Timestamps are held as signed 64-bit nanosecond counts, so the
    milliseconds that convert are those whose nanosecond count fits. *)
Definition max_ms : Z := (2 ^ 63 - 1) / 1000000.

Definition in_bounds (ms : Z) : bool := (- max_ms <=? ms) && (ms <=? max_ms).

(** The smallest 64-bit integer is the mark of a missing time. *)
Definition iNaT : Z := - 2 ^ 63.

(** An entry of a datetime column: a timestamp, or the missing time NaT. *)
Inductive datetime : Type :=
| Stamp (x : Timestamp)
| NaT.

(** [mask = iresult == NPY_NAT] on one entry of an integer column. *)
Definition masked (v : Z) : bool := v =? iNaT.

(** [iresult[mask] = 0]: the conversion works on the array of the column
    itself, not on a copy, so the column reads 0 at the masked entries
    from then on. *)
Definition zero_masked (values : list Z) : list Z :=
  map (fun v => if masked v then 0 else v) values.

(** [pd.to_datetime(column, unit='ms')] on an integer column: the entries
    equal to [iNaT] are masked and set to zero, the bounds are checked on
    what is left, and the result holds NaT at the masked entries.  [None]
    stands for the OutOfBoundsDatetime exception. *)
Definition to_datetime_series (values : list Z) : option (list datetime) :=
  let mask := map masked values in
  let iresult := zero_masked values in
  if forallb in_bounds iresult
  then Some (map (fun '((m, v) : bool * Z) =>
                    if m then NaT else Stamp (Timestamp_of_ms v))
                 (combine mask iresult))
  else None.

(** [pd.to_datetime(ts, unit='ms')] on a scalar: the conversion of the
    one-entry array [np.array([ts])], and its entry 0. *)
Definition to_datetime (ts : Z) : option datetime :=
  match to_datetime_series [ts] with
  | Some (x :: _) => Some x
  | _ => None
  end.

(** The milliseconds the conversion does not raise on. *)
Definition converts (ms : Z) : bool := masked ms || in_bounds ms.

Definition dayofweek (x : Timestamp) : Z :=
  Calendar.dayofweek (year x) (month x) (day x).

Definition week (x : Timestamp) : Z :=
  Calendar.get_week_of_year (year x) (month x) (day x).

(** A number read off a datetime: the fields of NaT are NaN. *)
Inductive number : Type :=
| Num (n : Z)
| NaN.

Definition field (f : Timestamp -> Z) (x : datetime) : number :=
  match x with
  | Stamp x => Num (f x)
  | NaT => NaN
  end.

(** Decimal digits, zero-padded on the left to [width] characters. *)
Definition digit (n : Z) : ascii := ascii_of_nat (48 + Z.to_nat n).

Fixpoint zfill (width : nat) (n : Z) : string :=
  match width with
  | O => ""
  | S w => zfill w (n / 10) ++ String (digit (n mod 10)) ""
  end.

(** [isoformat(sep)]: the fraction of the second is printed, with six
    digits, only when it is not zero. *)
Definition isoformat (sep : string) (x : Timestamp) : string :=
  zfill 4 (year x) ++ "-" ++ zfill 2 (month x) ++ "-" ++ zfill 2 (day x)
  ++ sep
  ++ zfill 2 (hour x) ++ ":" ++ zfill 2 (minute x) ++ ":" ++ zfill 2 (second x)
  ++ (if microsecond x =? 0 then "" else "." ++ zfill 6 (microsecond x)).

(** [str(x)] of a timestamp. *)
Definition str (x : Timestamp) : string := isoformat " " x.

(** [str(x)] of an entry of a datetime column. *)
Definition str_datetime (x : datetime) : string :=
  match x with
  | Stamp x => str x
  | NaT => "NaT"
  end.

(** pandas writes a missing number as NaN. *)
Definition isna (x : float) : bool := negb (x =? x)%float.

End Pandas.

(** ** The data frames read from the JSON files

    An object column holds a string or a missing value ([None]); an
    integer column holds integers; a float column holds floats, with NaN
    for a missing value. *)
Module SongData.

Record row : Type := mkrow {
  num_songs : Z;
  artist_id : option string;
  artist_latitude : float;
  artist_longitude : float;
  artist_location : option string;
  artist_name : option string;
  song_id : option string;
  title : option string;
  duration : float;
  year : Z
}.

End SongData.

Module LogData.

Record row : Type := mkrow {
  artist : option string;
  auth : option string;
  firstName : option string;
  gender : option string;
  itemInSession : Z;
  lastName : option string;
  length : float;
  level : option string;
  location : option string;
  method : option string;
  page : option string;
  registration : float;
  sessionId : Z;
  song : option string;
  status : Z;
  ts : Z;
  userAgent : option string;
  userId : option string
}.

End LogData.

(** ** The rows handed to the database, as Python tuples *)

(** (song_id, title, artist_id, year, duration) *)
Definition song_tuple : Type :=
  (option string * option string * option string * Z * float)%type.

(** (artist_id, name, location, latitude, longitude) *)
Definition artist_tuple : Type :=
  (option string * option string * option string * float * float)%type.

(** (start_time, hour, day, week, month, year, weekday) *)
Definition time_tuple : Type :=
  (string * Pandas.number * Pandas.number * Pandas.number * Pandas.number
   * Pandas.number * Pandas.number)%type.

(** (user_id, first_name, last_name, gender, level) *)
Definition user_tuple : Type :=
  (option string * option string * option string * option string
   * option string)%type.

(** (start_time, user_id, level, song_id, artist_id, session_id, location,
    user_agent) *)
Definition songplay_tuple : Type :=
  (string * option string * option string * option string * option string
   * Z * option string * option string)%type.

(** ** Cells of the notebook that only transform data *)

(** [df[['song_id', 'title', 'artist_id', 'year', 'duration']]] and the
    list of tuples made of its rows. *)
Definition song_df (df : list SongData.row) : list song_tuple :=
  map (fun r => (SongData.song_id r, SongData.title r, SongData.artist_id r,
                 SongData.year r, SongData.duration r)) df.

Definition song_tuples (df : list SongData.row) : list song_tuple := song_df df.

(** [df[['artist_id', 'artist_name', 'artist_location', 'artist_latitude',
    'artist_longitude']]]. *)
Definition artist_df (df : list SongData.row) : list artist_tuple :=
  map (fun r => (SongData.artist_id r, SongData.artist_name r,
                 SongData.artist_location r, SongData.artist_latitude r,
                 SongData.artist_longitude r)) df.

Definition artist_tuples (df : list SongData.row) : list artist_tuple :=
  artist_df df.

(** [df.page == 'NextSong'] on one row: a missing page compares unequal. *)
Definition is_NextSong (r : LogData.row) : bool :=
  match LogData.page r with
  | Some p => String.eqb p "NextSong"
  | None => false
  end.

(** [df = df[df.page == 'NextSong']] *)
Definition filter_NextSong (df : list LogData.row) : list LogData.row :=
  filter is_NextSong df.

(** [t = pd.to_datetime(df['ts'], unit='ms')] *)
Definition t (df : list LogData.row) : option (list Pandas.datetime) :=
  Pandas.to_datetime_series (map LogData.ts df).

(** A row with another value in its ts column. *)
Definition set_ts (v : Z) (r : LogData.row) : LogData.row :=
  LogData.mkrow (LogData.artist r) (LogData.auth r) (LogData.firstName r)
    (LogData.gender r) (LogData.itemInSession r) (LogData.lastName r)
    (LogData.length r) (LogData.level r) (LogData.location r)
    (LogData.method r) (LogData.page r) (LogData.registration r)
    (LogData.sessionId r) (LogData.song r) (LogData.status r) v
    (LogData.userAgent r) (LogData.userId r).

(** The frame after that cell: [df['ts']] hands the conversion the array
    of the frame, so the entries the conversion has set to zero are zero
    in the frame as well. *)
Definition df_after_t (df : list LogData.row) : list LogData.row :=
  map (fun r => if Pandas.masked (LogData.ts r) then set_ts 0 r else r) df.

(** One entry of [time_data]:
    [(str(x), x.hour, x.day, x.week, x.month, x.year, x.dayofweek)]. *)
Definition time_entry (x : Pandas.datetime) : time_tuple :=
  (Pandas.str_datetime x, Pandas.field Pandas.hour x, Pandas.field Pandas.day x,
   Pandas.field Pandas.week x, Pandas.field Pandas.month x,
   Pandas.field Pandas.year x, Pandas.field Pandas.dayofweek x).

Definition time_data (df : list LogData.row) : option (list time_tuple) :=
  option_map (map time_entry) (t df).

(** [time_df] and [time_tuples] carry the entries of [time_data] over,
    string for string and number for number (a column that holds a NaN
    holds its other numbers as floats of the same value). *)
Definition time_tuples (df : list LogData.row) : option (list time_tuple) :=
  time_data df.

(** The Time Decomposer on one millisecond timestamp. *)
Definition time_of_ms (ts : Z) : option time_tuple :=
  option_map time_entry (Pandas.to_datetime ts).

(** [user_df = df[['userId', 'firstName', 'lastName', 'gender', 'level']]] *)
Definition user_df (df : list LogData.row) : list user_tuple :=
  map (fun r => (LogData.userId r, LogData.firstName r, LogData.lastName r,
                 LogData.gender r, LogData.level r)) df.

Definition user_tuples (df : list LogData.row) : list user_tuple := user_df df.

(** ** The database session

    The notebook talks to PostgreSQL through one connection [conn] and one
    cursor [cur].  The session is modelled as the tables that are
    committed, the tables as the open transaction sees them, the result
    set the cursor holds, and the history of the statements sent. *)
Module Db.

Record Tables : Type := mkTables {
  songs : list song_tuple;
  artists : list artist_tuple;
  time : list time_tuple;
  users : list user_tuple;
  songplays : list songplay_tuple
}.

(** The statements of the log-file part of the notebook, named after the
    query strings of [sql_queries]. *)
Inductive statement : Type :=
| song_select (song artist : option string) (length : float)
| time_table_insert (rows : list time_tuple)
| user_table_insert (rows : list user_tuple)
| songplay_table_insert (rows : list songplay_tuple)
| commit.

Record Session : Type := mkSession {
  committed : Tables;
  working : Tables;
  fetched : list (option string * option string);
  calls : list statement;
  (** The statements the server refuses (constraint violation, lost
      connection), given the statements sent before. *)
  rejects : list statement -> statement -> bool
}.

Definition set_working (tb : Tables) (s : Session) : Session :=
  mkSession (committed s) tb (fetched s) (calls s) (rejects s).

Definition set_fetched (rs : list (option string * option string))
    (s : Session) : Session :=
  mkSession (committed s) (working s) rs (calls s) (rejects s).

Definition set_committed (tb : Tables) (s : Session) : Session :=
  mkSession tb (working s) (fetched s) (calls s) (rejects s).

Definition record_call (q : statement) (s : Session) : Session :=
  mkSession (committed s) (working s) (fetched s) (calls s ++ [q]) (rejects s).

(** SQL equality on nullable text: NULL is equal to nothing. *)
Definition sql_eq (a b : option string) : bool :=
  match a, b with
  | Some x, Some y => String.eqb x y
  | _, _ => false
  end.

(** Modelled from the spec: the query [song_select] of [sql_queries.py],
    which is not part of the sources.  The spec gives it as the natural-key
    lookup on the stored song and artist rows: exact match on the title and
    on the artist name, floating-point equality on the duration, result
    (song_id, artist_id). *)
Definition run_song_select (tb : Tables) (title name : option string)
    (duration : float) : list (option string * option string) :=
  flat_map (fun sg : song_tuple =>
    let '(song_id, song_title, song_artist, _, song_duration) := sg in
    flat_map (fun ar : artist_tuple =>
      let '(artist_id, artist_name, _, _, _) := ar in
      if sql_eq song_title title && sql_eq artist_name name
         && (song_duration =? duration)%float
         && sql_eq song_artist artist_id
      then [(song_id, artist_id)] else [])
      (artists tb))
    (songs tb).

Definition time_key (r : time_tuple) : string :=
  let '(start_time, _, _, _, _, _, _) := r in start_time.

(** Modelled from the spec: [time_table_insert] of [sql_queries.py], an
    insert that ignores a row whose start_time is already stored. *)
Definition insert_time (table : list time_tuple) (r : time_tuple)
    : list time_tuple :=
  if existsb (fun r' => String.eqb (time_key r') (time_key r)) table
  then table else table ++ [r].

Definition user_key (r : user_tuple) : option string :=
  let '(user_id, _, _, _, _) := r in user_id.

Definition user_level (r : user_tuple) : option string :=
  let '(_, _, _, _, level) := r in level.

Definition same_user (r r' : user_tuple) : bool :=
  match user_key r, user_key r' with
  | Some a, Some b => String.eqb a b
  | None, None => true
  | _, _ => false
  end.

Definition with_level (level : option string) (r : user_tuple) : user_tuple :=
  let '(user_id, first_name, last_name, gender, _) := r in
  (user_id, first_name, last_name, gender, level).

(** Modelled from the spec: [user_table_insert] of [sql_queries.py], an
    insert that on a stored user_id overwrites the level of the stored
    row (the last write wins). *)
Definition upsert_user (table : list user_tuple) (r : user_tuple)
    : list user_tuple :=
  if existsb (same_user r) table
  then map (fun r' => if same_user r r' then with_level (user_level r) r'
                      else r') table
  else table ++ [r].

Definition with_time (f : list time_tuple -> list time_tuple) (tb : Tables)
    : Tables :=
  mkTables (songs tb) (artists tb) (f (time tb)) (users tb) (songplays tb).

Definition with_users (f : list user_tuple -> list user_tuple) (tb : Tables)
    : Tables :=
  mkTables (songs tb) (artists tb) (time tb) (f (users tb)) (songplays tb).

Definition with_songplays (f : list songplay_tuple -> list songplay_tuple)
    (tb : Tables) : Tables :=
  mkTables (songs tb) (artists tb) (time tb) (users tb) (f (songplays tb)).

(** Exceptions that end a cell. *)
Inductive exn : Type := OutOfBoundsDatetime | IndexError | DatabaseError.

Inductive result (A : Type) : Type :=
| Ok (a : A)
| Raise (e : exn).
Arguments Ok {A} a.
Arguments Raise {A} e.

(** Code that runs against the session. *)
Definition M (A : Type) : Type := Session -> result A * Session.

Definition ret {A : Type} (a : A) : M A := fun s => (Ok a, s).

Definition raise {A : Type} (e : exn) : M A := fun s => (Raise e, s).

Definition bind {A B : Type} (m : M A) (k : A -> M B) : M B :=
  fun s =>
    match m s with
    | (Ok a, s') => k a s'
    | (Raise e, s') => (Raise e, s')
    end.

Definition of_option {A : Type} (e : exn) (o : option A) : M A :=
  match o with Some a => ret a | None => raise e end.

(** Sending a statement: it enters the history; a refused statement
    raises and changes nothing, an accepted one takes effect on the
    session. *)
Definition send (q : statement) (effect : Session -> Session) : M unit :=
  fun s =>
    if rejects s (calls s) q
    then (Raise DatabaseError, record_call q s)
    else (Ok tt, effect (record_call q s)).

(** [cur.execute(song_select, (song, artist, length))] *)
Definition cur_execute_song_select (song artist : option string)
    (length : float) : M unit :=
  send (song_select song artist length)
       (fun s =>
          set_fetched (run_song_select (working s) song artist length) s).

(** [cur.fetchone()]: the next row of the result set, or [None]. *)
Definition cur_fetchone : M (option (option string * option string)) :=
  fun s =>
    match fetched s with
    | [] => (Ok None, s)
    | r :: rest => (Ok (Some r), set_fetched rest s)
    end.

(** [l[0]] of a Python list. *)
Definition first_entry {A : Type} (l : list A) : M A :=
  match l with
  | x :: _ => ret x
  | [] => raise IndexError
  end.

(** The pages [execute_values] cuts the rows into ([page_size=100]): a
    page is handed on when it is full, and what is left at the end when it
    is not empty.  [room] counts the free places of the page being
    filled. *)
Definition page_size : nat := 100.

Fixpoint paginate_from {A : Type} (room : nat) (page seq : list A)
    : list (list A) :=
  match seq with
  | [] => match page with [] => [] | _ => [page] end
  | x :: rest =>
      match room with
      | O | S O => (page ++ [x])%list :: paginate_from page_size [] rest
      | S room' => paginate_from room' (page ++ [x])%list rest
      end
  end.

Definition paginate {A : Type} (seq : list A) : list (list A) :=
  paginate_from page_size [] seq.

(** One statement for every page, each carrying the rows of its page. *)
Fixpoint send_pages {A : Type} (query : list A -> statement)
    (apply : list A -> Tables -> Tables) (pages : list (list A)) : M unit :=
  match pages with
  | [] => ret tt
  | page :: rest =>
      bind (send (query page)
                 (fun s =>
                    set_fetched [] (set_working (apply page (working s)) s)))
           (fun _ => send_pages query apply rest)
  end.

(** [execute_values(cur, query, rows)]: nothing at all is sent for an
    empty list. *)
Definition execute_values {A : Type} (query : list A -> statement)
    (apply : list A -> Tables -> Tables) (rows : list A) : M unit :=
  send_pages query apply (paginate rows).

Definition execute_values_time : list time_tuple -> M unit :=
  execute_values time_table_insert
    (fun rows => with_time (fun table => fold_left insert_time rows table)).

Definition execute_values_user : list user_tuple -> M unit :=
  execute_values user_table_insert
    (fun rows => with_users (fun table => fold_left upsert_user rows table)).

(** The songplays table takes a plain insert. *)
Definition execute_values_songplay : list songplay_tuple -> M unit :=
  execute_values songplay_table_insert
    (fun rows => with_songplays (fun table => (table ++ rows)%list)).

(** [conn.commit()] *)
Definition conn_commit : M unit :=
  send commit (fun s => set_committed (working s) s).

End Db.

Declare Scope db_scope.
Delimit Scope db_scope with db.
Notation "x <- m ;; k" := (Db.bind m (fun x => k))
  (at level 61, m at next level, right associativity) : db_scope.
Notation "m ;; k" := (Db.bind m (fun _ => k))
  (at level 61, right associativity) : db_scope.

(** ** Cells of the notebook that run against the database *)

(** The fact row of one event, given what [cur.fetchone()] returned. *)
Definition songplay_data (results : option (option string * option string))
    (row : LogData.row) : option songplay_tuple :=
  let '(song_id, artist_id) :=
    match results with Some r => r | None => (None, None) end in
  match Pandas.to_datetime (LogData.ts row) with
  | Some x =>
      Some (Pandas.str_datetime x, LogData.userId row, LogData.level row,
            song_id, artist_id, LogData.sessionId row,
            LogData.location row, LogData.userAgent row)
  | None => None
  end.

(** The body of [for _, row in df.iterrows()]: the lookup, its first
    row, the tuple, the insert of that one tuple, the commit.  The length
    column is a float column, so [float(row.length)] is the value itself. *)
Definition songplay_step (row : LogData.row) : Db.M unit :=
  (Db.cur_execute_song_select (LogData.song row) (LogData.artist row)
                              (LogData.length row) ;;
   results <- Db.cur_fetchone ;;
   data <- Db.of_option Db.OutOfBoundsDatetime (songplay_data results row) ;;
   Db.execute_values_songplay [data] ;;
   Db.conn_commit)%db.

Fixpoint songplay_loop (df : list LogData.row) : Db.M unit :=
  match df with
  | [] => Db.ret tt
  | row :: rest => (songplay_step row ;; songplay_loop rest)%db
  end.

(** The log-file part of the notebook, from the filter on the page to the
    songplay loop.  The cell that builds [time_data] ends with the line
    [time_data[0]], which raises on a frame without rows; the cells after
    the conversion see the frame the conversion has left. *)
Definition process_log_file (log : list LogData.row) : Db.M unit :=
  let df := filter_NextSong log in
  (time_data <- Db.of_option Db.OutOfBoundsDatetime (time_data df) ;;
   let df := df_after_t df in
   Db.first_entry time_data ;;
   Db.execute_values_time time_data ;;
   Db.conn_commit ;;
   Db.execute_values_user (user_tuples df) ;;
   Db.conn_commit ;;
   songplay_loop df)%db.

(** ** Notions the statements below are phrased with *)

(** The instant a timestamp's fields denote, in milliseconds since the
    epoch: the ordinal of the date and the time of day. *)
Definition ms_of_fields (x : Pandas.Timestamp) : Z :=
  (Calendar.ymd2ord (Pandas.year x) (Pandas.month x) (Pandas.day x)
   - Calendar.epoch_ordinal) * 86400000
  + Pandas.hour x * 3600000 + Pandas.minute x * 60000
  + Pandas.second x * 1000 + Pandas.microsecond x / 1000.

(** The (song_id, artist_id) an event resolves to against the tables:
    the first row of the lookup, or two nulls. *)
Definition resolve_ids (tb : Db.Tables) (row : LogData.row)
    : option string * option string :=
  match Db.run_song_select tb (LogData.song row) (LogData.artist row)
                           (LogData.length row) with
  | r :: _ => r
  | [] => (None, None)
  end.

(** The fields of a timestamp read as a date of the calendar and a time
    of day in whole milliseconds. *)
Definition well_formed (x : Pandas.Timestamp) : Prop :=
  Calendar.valid_date (Pandas.year x) (Pandas.month x) (Pandas.day x) /\
  0 <= Pandas.hour x < 24 /\ 0 <= Pandas.minute x < 60 /\
  0 <= Pandas.second x < 60 /\
  0 <= Pandas.microsecond x < 1000000 /\ Pandas.microsecond x mod 1000 = 0.

(** The entry of a datetime column a millisecond count converts to, when
    the conversion does not raise, and what [str] prints for it. *)
Definition datetime_of_ms (ts : Z) : Pandas.datetime :=
  if Pandas.masked ts then Pandas.NaT
  else Pandas.Stamp (Pandas.Timestamp_of_ms ts).

Definition start_time_of_ms (ts : Z) : string :=
  Pandas.str_datetime (datetime_of_ms ts).

(** The fact row of an event against the tables. *)
Definition songplay_row (tb : Db.Tables) (row : LogData.row) : songplay_tuple :=
  (start_time_of_ms (LogData.ts row),
   LogData.userId row, LogData.level row,
   fst (resolve_ids tb row), snd (resolve_ids tb row),
   LogData.sessionId row, LogData.location row, LogData.userAgent row).

(** The statements one pass of the songplay loop sends for an event. *)
Definition songplay_statements (tb : Db.Tables) (row : LogData.row)
    : list Db.statement :=
  [Db.song_select (LogData.song row) (LogData.artist row) (LogData.length row);
   Db.songplay_table_insert [songplay_row tb row];
   Db.commit].


Definition ts_in_bounds (row : LogData.row) : Prop :=
  Pandas.in_bounds (LogData.ts row) = true.

Definition ts_converts (row : LogData.row) : Prop :=
  Pandas.converts (LogData.ts row) = true.

(** A session whose server refuses nothing. *)
Definition accepts_all (s : Db.Session) : Prop :=
  forall history q, Db.rejects s history q = false.

(** The statements [new], sent one after the other on top of [history],
    were each accepted by a server that refuses according to [rej]. *)
Fixpoint accepted (rej : list Db.statement -> Db.statement -> bool)
    (history new : list Db.statement) : Prop :=
  match new with
  | [] => True
  | q :: rest => rej history q = false /\ accepted rej (history ++ [q]) rest
  end.

(** How a pass of the songplay loop over [row] ends in the exception [e],
    on top of the history [h] and against the tables [tb], and the
    statements [sent] it has sent by then: the lookup is refused; or the
    lookup is accepted and the timestamp does not convert; or the insert
    of the row is refused; or the commit is. *)
Definition pass_fails (rej : list Db.statement -> Db.statement -> bool)
    (tb : Db.Tables) (h : list Db.statement) (row : LogData.row)
    (e : Db.exn) (sent : list Db.statement) : Prop :=
  let q1 := Db.song_select (LogData.song row) (LogData.artist row)
                           (LogData.length row) in
  let q2 := Db.songplay_table_insert [songplay_row tb row] in
  (e = Db.DatabaseError /\ sent = [q1] /\ rej h q1 = true) \/
  (e = Db.OutOfBoundsDatetime /\ sent = [q1] /\ rej h q1 = false /\
   Pandas.converts (LogData.ts row) = false) \/
  (e = Db.DatabaseError /\ sent = [q1; q2] /\ rej h q1 = false /\
   Pandas.converts (LogData.ts row) = true /\
   rej (h ++ [q1])%list q2 = true) \/
  (e = Db.DatabaseError /\ sent = [q1; q2; Db.commit] /\ rej h q1 = false /\
   Pandas.converts (LogData.ts row) = true /\
   rej (h ++ [q1])%list q2 = false /\ rej (h ++ [q1; q2])%list Db.commit = true).

(** The session after one complete pass of the songplay loop: the row is
    in the songplays table and committed, the three statements are in the
    history, the cursor holds no result. *)
Definition after_step (row : LogData.row) (s : Db.Session) : Db.Session :=
  let tb :=
    Db.with_songplays
      (fun table => (table ++ [songplay_row (Db.working s) row])%list)
      (Db.working s) in
  Db.mkSession tb tb []
    (Db.calls s ++ songplay_statements (Db.working s) row) (Db.rejects s).

(** ** Sample data: the records shown in the notebook

    The song record and the first two log records are those the notebook
    prints (the user agent is shortened, the registration time is the
    rounded value of the print-out); the others are variations on them. *)
Module Sample.

Definition song : SongData.row :=
  SongData.mkrow 1 (Some "AR7G5I41187FB4CE6C") nan nan
    (Some "London, England") (Some "Adam Ant")
    (Some "SONHOTT12A8C13493C") (Some "Something Girls")
    233.40363%float 1982.

Definition agent : option string :=
  Some "Mozilla/5.0 (Macintosh; Intel Mac OS X 10_9_4)".

Definition city : option string :=
  Some "Philadelphia-Camden-Wilmington, PA-NJ-DE-MD".

Definition event0 : LogData.row :=
  LogData.mkrow (Some "Frumpies") (Some "Logged In") (Some "Anabelle")
    (Some "F") 0 (Some "Simpson") 134.47791%float (Some "free") city
    (Some "PUT") (Some "NextSong") 1.541044e12%float 455
    (Some "Fuck Kitty") 200 1541903636796 agent (Some "69").

Definition event1 : LogData.row :=
  LogData.mkrow (Some "Kenny G with Peabo Bryson") (Some "Logged In")
    (Some "Anabelle") (Some "F") 1 (Some "Simpson") 264.75057%float
    (Some "free") city (Some "PUT") (Some "NextSong") 1.541044e12%float 455
    (Some "By The Time This Night Is Over") 200 1541903770796 agent (Some "69").

(** A play event that carries an empty user id. *)
Definition anonymous_play : LogData.row :=
  LogData.mkrow (Some "Adam Ant") (Some "Logged Out") None None 0 None
    233.40363%float (Some "free") None (Some "PUT") (Some "NextSong")
    nan 12 (Some "Something Girls") 200 1541903900796 None (Some "").

(** A play event that carries no user id at all. *)
Definition unidentified_play : LogData.row :=
  LogData.mkrow (Some "Adam Ant") (Some "Logged Out") None None 0 None
    233.40363%float (Some "free") None (Some "PUT") (Some "NextSong")
    nan 12 (Some "Something Girls") 200 1541903900796 None None.

(** A page view of a logged-in user: not a play event. *)
Definition home_view : LogData.row :=
  LogData.mkrow None (Some "Logged In") (Some "Anabelle") (Some "F") 2
    (Some "Simpson") nan (Some "free") city (Some "GET") (Some "Home")
    1.541044e12%float 455 None 200 1541903800796 agent (Some "69").

(** A play event whose timestamp lies in the year 2500. *)
Definition far_future_play : LogData.row :=
  LogData.mkrow (Some "Adam Ant") (Some "Logged In") (Some "Anabelle")
    (Some "F") 3 (Some "Simpson") 233.40363%float (Some "free") city
    (Some "PUT") (Some "NextSong") 1.541044e12%float 455
    (Some "Something Girls") 200 16725225600000 agent (Some "69").


Definition catalog : Db.Tables :=
  Db.mkTables (song_tuples [song]) (artist_tuples [song]) [] [] [].

(** A play event for the song of the catalog. *)
Definition catalog_play : LogData.row :=
  LogData.mkrow (Some "Adam Ant") (Some "Logged In") (Some "Anabelle")
    (Some "F") 3 (Some "Simpson") 233.40363%float (Some "free") city
    (Some "PUT") (Some "NextSong") 1.541044e12%float 455
    (Some "Something Girls") 200 1541903900796 agent (Some "69").

(** A fresh session on the catalog, with a server that refuses nothing. *)
Definition session : Db.Session :=
  Db.mkSession catalog catalog [] [] (fun _ _ => false).

(** The same session with a server that refuses the second songplay
    insert it is sent. *)
Definition is_songplay_insert (q : Db.statement) : bool :=
  match q with Db.songplay_table_insert _ => true | _ => false end.

Definition failing_session : Db.Session :=
  Db.mkSession catalog catalog [] []
    (fun history q =>
       is_songplay_insert q
       && (1 <=? Z.of_nat (List.length (filter is_songplay_insert history)))).

End Sample.

(** ** The song-file part of the notebook

    The first half of the notebook loads one song file: the song tuples
    are inserted and committed, then the artist tuples.  Its statements
    are kept apart from those of the log-file part; the tables are the
    same. *)
Module SongDb.

Inductive statement : Type :=
| song_table_insert (rows : list song_tuple)
| artist_table_insert (rows : list artist_tuple)
| commit.

Record Session : Type := mkSession {
  committed : Db.Tables;
  working : Db.Tables;
  calls : list statement;
  rejects : list statement -> statement -> bool
}.

Definition song_key (r : song_tuple) : option string :=
  let '(song_id, _, _, _, _) := r in song_id.

Definition artist_key (r : artist_tuple) : option string :=
  let '(artist_id, _, _, _, _) := r in artist_id.

Definition same_key (a b : option string) : bool :=
  match a, b with
  | Some x, Some y => String.eqb x y
  | None, None => true
  | _, _ => false
  end.

(** An insert that leaves the table alone when the key is stored. *)
Definition insert_ignore {A : Type} (key : A -> option string)
    (table : list A) (r : A) : list A :=
  if existsb (fun r' => same_key (key r') (key r)) table then table
  else (table ++ [r])%list.

(** Modelled from the spec: [song_table_insert] of [sql_queries.py], an
    insert that ignores a row whose song_id is already stored. *)
Definition insert_song : list song_tuple -> song_tuple -> list song_tuple :=
  insert_ignore song_key.

(** Modelled from the spec: [artist_table_insert] of [sql_queries.py], an
    insert that ignores a row whose artist_id is already stored. *)
Definition insert_artist
    : list artist_tuple -> artist_tuple -> list artist_tuple :=
  insert_ignore artist_key.

Definition with_songs (f : list song_tuple -> list song_tuple)
    (tb : Db.Tables) : Db.Tables :=
  Db.mkTables (f (Db.songs tb)) (Db.artists tb) (Db.time tb) (Db.users tb)
              (Db.songplays tb).

Definition with_artists (f : list artist_tuple -> list artist_tuple)
    (tb : Db.Tables) : Db.Tables :=
  Db.mkTables (Db.songs tb) (f (Db.artists tb)) (Db.time tb) (Db.users tb)
              (Db.songplays tb).

Definition M (A : Type) : Type := Session -> Db.result A * Session.

Definition ret {A : Type} (a : A) : M A := fun s => (Db.Ok a, s).

Definition bind {A B : Type} (m : M A) (k : A -> M B) : M B :=
  fun s =>
    match m s with
    | (Db.Ok a, s') => k a s'
    | (Db.Raise e, s') => (Db.Raise e, s')
    end.

(** Sending a statement, as in the log-file part: a refused statement
    raises and changes no table. *)
Definition send (q : statement) (effect : Db.Tables -> Db.Tables) : M unit :=
  fun s =>
    if rejects s (calls s) q
    then (Db.Raise Db.DatabaseError,
          mkSession (committed s) (working s) (calls s ++ [q]) (rejects s))
    else (Db.Ok tt,
          mkSession (committed s) (effect (working s)) (calls s ++ [q])
                    (rejects s)).

(** [execute_values(cur, query, rows)]: one statement for every page of
    rows, nothing for no rows. *)
Fixpoint send_pages {A : Type} (query : list A -> statement)
    (apply : list A -> Db.Tables -> Db.Tables) (pages : list (list A))
    : M unit :=
  match pages with
  | [] => ret tt
  | page :: rest =>
      bind (send (query page) (apply page))
           (fun _ => send_pages query apply rest)
  end.

Definition execute_values {A : Type} (query : list A -> statement)
    (apply : list A -> Db.Tables -> Db.Tables) (rows : list A) : M unit :=
  send_pages query apply (Db.paginate rows).

Definition execute_values_song : list song_tuple -> M unit :=
  execute_values song_table_insert
    (fun rows => with_songs (fun table => fold_left insert_song rows table)).

Definition execute_values_artist : list artist_tuple -> M unit :=
  execute_values artist_table_insert
    (fun rows =>
       with_artists (fun table => fold_left insert_artist rows table)).

(** [conn.commit()] *)
Definition conn_commit : M unit :=
  fun s =>
    if rejects s (calls s) commit
    then (Db.Raise Db.DatabaseError,
          mkSession (committed s) (working s) (calls s ++ [commit])
                    (rejects s))
    else (Db.Ok tt,
          mkSession (working s) (working s) (calls s ++ [commit])
                    (rejects s)).

End SongDb.

(** The song-file part, from the column selections to the second commit:
    [execute_values(cur, song_table_insert, song_tuples)], [conn.commit()],
    [execute_values(cur, artist_table_insert, artist_tuples)],
    [conn.commit()]. *)
Definition process_song_file (df : list SongData.row) : SongDb.M unit :=
  SongDb.bind (SongDb.execute_values_song (song_tuples df)) (fun _ =>
  SongDb.bind SongDb.conn_commit (fun _ =>
  SongDb.bind (SongDb.execute_values_artist (artist_tuples df)) (fun _ =>
  SongDb.conn_commit))).

(** ** Further notions *)

(** A run from [s] to [s'] with result [r] stopped at the first refusal:
    every statement it sent was accepted, except that a run ending in a
    database error sent one more statement, the refused one, and nothing
    after it. *)
Definition stops_at_refusal {A : Type} (s : Db.Session) (r : Db.result A)
    (s' : Db.Session) : Prop :=
  Db.rejects s' = Db.rejects s /\
  exists new : list Db.statement,
    Db.calls s' = (Db.calls s ++ new)%list /\
    match r with
    | Db.Raise Db.DatabaseError =>
        exists (sent : list Db.statement) (q : Db.statement),
          new = (sent ++ [q])%list /\
          accepted (Db.rejects s) (Db.calls s) sent /\
          Db.rejects s (Db.calls s ++ sent) q = true
    | _ => accepted (Db.rejects s) (Db.calls s) new
    end.

(** Code all of whose runs stop at the first refusal. *)
Definition fail_fast {A : Type} (m : Db.M A) : Prop :=
  forall (s s' : Db.Session) (r : Db.result A),
    m s = (r, s') -> stops_at_refusal s r s'.

(** Two states of the tables with the same dimension tables. *)
Definition same_dimensions (tb tb' : Db.Tables) : Prop :=
  Db.songs tb' = Db.songs tb /\ Db.artists tb' = Db.artists tb /\
  Db.time tb' = Db.time tb /\ Db.users tb' = Db.users tb.

(** A play event whose timestamp pandas cannot hold. *)
Definition out_of_bounds_play (e : LogData.row) : Prop :=
  is_NextSong e = true /\ Pandas.converts (LogData.ts e) = false.

Definition song_accepts_all (s : SongDb.Session) : Prop :=
  forall history q, SongDb.rejects s history q = false.

(** The tables after the songs, and after the songs and the artists, of a
    song file have been loaded. *)
Definition songs_loaded (df : list SongData.row) (tb : Db.Tables)
    : list song_tuple :=
  fold_left SongDb.insert_song (song_tuples df) (Db.songs tb).

Definition artists_loaded (df : list SongData.row) (tb : Db.Tables)
    : list artist_tuple :=
  fold_left SongDb.insert_artist (artist_tuples df) (Db.artists tb).

(** Sample sessions of the song-file part on empty tables: a server that
    refuses nothing, and one that refuses every artist insert. *)
Module SongSample.

Definition empty : Db.Tables := Db.mkTables [] [] [] [] [].

Definition session : SongDb.Session :=
  SongDb.mkSession empty empty [] (fun _ _ => false).

Definition is_artist_insert (q : SongDb.statement) : bool :=
  match q with SongDb.artist_table_insert _ => true | _ => false end.

Definition failing_session : SongDb.Session :=
  SongDb.mkSession empty empty [] (fun _ q => is_artist_insert q).

End SongSample.

(** * Properties *)

(** ** Checks on concrete inputs *)
Section Checks.

Example leap_years :
  map Calendar.is_leapyear [1900; 2000; 2018; 2020] =
    [false; true; false; true].
Proof. reflexivity. Qed.

Example civil_of_days_epoch :
  map Calendar.civil_of_days [-1; 0; 17846; 11016] =
    [(1969, 12, 31); (1970, 1, 1); (2018, 11, 11); (2000, 2, 29)].
Proof. reflexivity. Qed.

(** Weeks at the turn of a year: 2018-12-31 opens week 1 of 2019,
    2021-01-01 still lies in week 53 of 2020. *)
Example weeks_at_new_year :
  (Calendar.get_week_of_year 2018 11 11, Calendar.get_week_of_year 2018 12 31,
   Calendar.get_week_of_year 2021 1 1, Calendar.get_week_of_year 2021 1 4)
  = (45, 1, 53, 1).
Proof. reflexivity. Qed.

Example str_of_notebook_timestamp :
  option_map Pandas.str_datetime (Pandas.to_datetime 1541903636796) =
    Some "2018-11-11 02:33:56.796000".
Proof. vm_compute. reflexivity. Qed.

(** A whole second prints without a fraction. *)
Example str_of_whole_second :
  option_map Pandas.str_datetime (Pandas.to_datetime 1541903636000) =
    Some "2018-11-11 02:33:56".
Proof. vm_compute. reflexivity. Qed.

Example str_before_epoch :
  option_map Pandas.str_datetime (Pandas.to_datetime (-1)) =
    Some "1969-12-31 23:59:59.999000".
Proof. vm_compute. reflexivity. Qed.

Example to_datetime_bounds :
  option_map Pandas.str_datetime (Pandas.to_datetime Pandas.max_ms) =
    Some "2262-04-11 23:47:16.854000" /\
  Pandas.to_datetime (Pandas.max_ms + 1) = None /\
  option_map Pandas.str_datetime (Pandas.to_datetime (- Pandas.max_ms)) =
    Some "1677-09-21 00:12:43.146000" /\
  Pandas.to_datetime (- Pandas.max_ms - 1) = None.
Proof. repeat split; vm_compute; reflexivity. Qed.

(** The smallest 64-bit integer converts to the missing time, in a column
    next to ordinary entries as well, and the column reads 0 there
    afterwards. *)
Example to_datetime_not_a_time :
  Pandas.to_datetime (-9223372036854775808) = Some Pandas.NaT /\
  option_map (map Pandas.str_datetime)
    (Pandas.to_datetime_series [1541903636000; -9223372036854775808]) =
    Some ["2018-11-11 02:33:56"; "NaT"] /\
  Pandas.zero_masked [1541903636000; -9223372036854775808] =
    [1541903636000; 0].
Proof. repeat split; vm_compute; reflexivity. Qed.

(** The pages of 250 rows: two full pages and the rest. *)
Example paginate_250 :
  map (@List.length nat) (Db.paginate (seq 0 250)) = [100; 100; 50]%nat /\
  List.concat (Db.paginate (seq 0 250)) = seq 0 250 /\
  Db.paginate (@nil nat) = [] /\
  map (@List.length nat) (Db.paginate (seq 0 200)) = [100; 100]%nat.
Proof. repeat split; vm_compute; reflexivity. Qed.

(** The lookup finds the song of the catalog by title, artist name and
    duration, and nothing when the duration differs in the last digit. *)
Example lookup_in_sample_catalog :
  Db.run_song_select Sample.catalog (Some "Something Girls") (Some "Adam Ant")
                     233.40363%float =
    [(Some "SONHOTT12A8C13493C", Some "AR7G5I41187FB4CE6C")] /\
  Db.run_song_select Sample.catalog (Some "Something Girls") (Some "Adam Ant")
                     233.40364%float = [] /\
  Db.run_song_select Sample.catalog (Some "something girls") (Some "Adam Ant")
                     233.40363%float = [].
Proof. repeat split. Qed.

(** The log-file part on three sample records: the page view leaves no
    trace, both play events are stored, the second one resolved. *)
Example process_sample_log :
  let run :=
    process_log_file [Sample.event0; Sample.home_view; Sample.catalog_play]
                     Sample.session in
  fst run = Db.Ok tt /\
  map Db.time_key (Db.time (Db.committed (snd run))) =
    ["2018-11-11 02:33:56.796000"; "2018-11-11 02:38:20.796000"] /\
  map Db.user_key (Db.users (Db.committed (snd run))) = [Some "69"] /\
  Db.songplays (Db.committed (snd run)) =
    [("2018-11-11 02:33:56.796000", Some "69", Some "free", None, None, 455,
      Sample.city, Sample.agent);
     ("2018-11-11 02:38:20.796000", Some "69", Some "free",
      Some "SONHOTT12A8C13493C", Some "AR7G5I41187FB4CE6C", 455,
      Sample.city, Sample.agent)].
Proof. vm_compute. repeat split. Qed.

(** The same against the server that refuses the second songplay insert:
    the first fact row stays committed. *)
Example process_sample_log_failing :
  let run :=
    process_log_file [Sample.event0; Sample.home_view; Sample.catalog_play]
                     Sample.failing_session in
  fst run = Db.Raise Db.DatabaseError /\
  Db.songplays (Db.committed (snd run)) =
    [("2018-11-11 02:33:56.796000", Some "69", Some "free", None, None, 455,
      Sample.city, Sample.agent)].
Proof. vm_compute. repeat split. Qed.

End Checks.

(** ** The calendar conversion *)
Module CalendarFacts.
Import Calendar.

Lemma is_leapyear_true (y : Z) :
  is_leapyear y = true <-> (y mod 4 = 0 /\ (y mod 100 <> 0 \/ y mod 400 = 0)).
Proof.
  unfold is_leapyear.
  rewrite andb_true_iff, orb_true_iff, negb_true_iff, !Z.eqb_eq, Z.eqb_neq.
  tauto.
Qed.

Lemma is_leapyear_false (y : Z) :
  is_leapyear y = false <->
  ~ (y mod 4 = 0 /\ (y mod 100 <> 0 \/ y mod 400 = 0)).
Proof. rewrite <- is_leapyear_true. symmetry. apply not_true_iff_false. Qed.

Ltac case_leap y :=
  let L := fresh "L" in
  destruct (is_leapyear y) eqn:L;
  [ apply is_leapyear_true in L | apply is_leapyear_false in L ].

Ltac div_lia := Z.to_euclidean_division_equations; lia.

(** Closed table look-ups are replaced by their values. *)
Ltac eval_tables :=
  repeat match goal with
  | |- context [nth ?n ?l ?d] =>
      let v := eval vm_compute in (nth n l d) in
      change (nth n l d) with v
  end.

Lemma month_cases (m : Z) :
  1 <= m <= 12 ->
  m = 1 \/ m = 2 \/ m = 3 \/ m = 4 \/ m = 5 \/ m = 6 \/
  m = 7 \/ m = 8 \/ m = 9 \/ m = 10 \/ m = 11 \/ m = 12.
Proof. lia. Qed.

Ltac each_month H :=
  apply month_cases in H;
  repeat (destruct H as [H | H]); subst.

Lemma year_length_bounds (y : Z) : 365 <= year_length y <= 366.
Proof. unfold year_length. destruct (is_leapyear y); lia. Qed.

Lemma days_before_year_succ (y : Z) :
  days_before_year (y + 1) = days_before_year y + year_length y.
Proof. unfold days_before_year, year_length. case_leap y; div_lia. Qed.

Lemma days_before_year_mono (y y' : Z) :
  y <= y' -> days_before_year y <= days_before_year y'.
Proof. unfold days_before_year. intros H. div_lia. Qed.

(** The year and the day of the year that [days_to_yearsdays] returns
    are those of the ordinal. *)
Lemma days_to_yearsdays_spec (d : Z) :
  let '(y, doy) := days_to_yearsdays d in
  days_before_year y + doy = d + (epoch_ordinal - 1) /\
  0 <= doy < year_length y.
Proof.
  unfold days_to_yearsdays, days_per_400years, days_before_year, year_length,
    epoch_ordinal.
  repeat match goal with
  | |- context [if ?b >=? ?c then _ else _] => destruct (Z.geb_spec b c)
  end.
  all: match goal with |- context [is_leapyear ?y] => case_leap y end.
  all: div_lia.
Qed.

(** They are the only such pair. *)
Lemma days_to_yearsdays_unique (y doy d : Z) :
  days_before_year y + doy = d + (epoch_ordinal - 1) ->
  0 <= doy < year_length y ->
  days_to_yearsdays d = (y, doy).
Proof.
  intros E B.
  pose proof (days_to_yearsdays_spec d) as S.
  destruct (days_to_yearsdays d) as [y' doy']. destruct S as [E' B'].
  assert (y' = y) as ->.
  { destruct (Z.lt_trichotomy y' y) as [Hlt | [Heq | Hgt]]; trivial; exfalso.
    - pose proof (days_before_year_mono (y' + 1) y ltac:(lia)).
      rewrite days_before_year_succ in *. lia.
    - pose proof (days_before_year_mono (y + 1) y' ltac:(lia)).
      rewrite days_before_year_succ in *. lia. }
  f_equal. lia.
Qed.

(** The month loop ends inside the table and splits the day of the year
    into a month and a day of that month. *)
Lemma find_month_spec (y doy : Z) :
  0 <= doy < year_length y ->
  let '(m, d) := find_month (days_per_month_table (is_leapyear y)) 0 doy in
  valid_date y m d /\ days_before_month y m + d = doy + 1.
Proof.
  unfold year_length, valid_date, days_in_month, days_before_month,
    month_offset.
  destruct (is_leapyear y); intros B; cbn [days_per_month_table find_month].
  all: repeat match goal with
       | |- context [if ?a <? ?b then _ else _] => destruct (Z.ltb_spec a b)
       end.
  all: eval_tables; lia.
Qed.

(** The date of a day count is a date of the calendar, and its ordinal is
    the day count again. *)
Lemma civil_of_days_spec (days : Z) :
  let '(y, m, d) := civil_of_days days in
  valid_date y m d /\ ymd2ord y m d = days + epoch_ordinal.
Proof.
  unfold civil_of_days, ymd2ord.
  pose proof (days_to_yearsdays_spec days) as S.
  destruct (days_to_yearsdays days) as [y doy]. destruct S as [E B].
  pose proof (find_month_spec y doy B) as F.
  destruct (find_month _ 0 doy) as [m d]. destruct F as [V F].
  split; [exact V | lia].
Qed.

(** Sakamoto's method agrees with the weekday of the ordinal. *)
Lemma dayofweek_ordinal (y m d : Z) :
  1 <= m <= 12 ->
  dayofweek y m d = weekday_of_ordinal (ymd2ord y m d).
Proof.
  intros Hm.
  unfold dayofweek, weekday_of_ordinal, ymd2ord, days_before_year,
    days_before_month, sakamoto_arr, month_offset.
  case_leap y; each_month Hm; eval_tables;
    cbn [Z.ltb Z.compare Pos.compare Pos.compare_cont].
  all: div_lia.
Qed.

Lemma weekday_of_ordinal_range (ord : Z) : 0 <= weekday_of_ordinal ord <= 6.
Proof.
  unfold weekday_of_ordinal. pose proof (Z.mod_pos_bound (ord + 6) 7). lia.
Qed.

(** The ISO week in terms of the year, the day of the year and the
    weekday: the Thursday of the week falls in the year before, in the
    year itself or in the year after. *)
Lemma iso_week_of_ordinal_cases (y doy1 : Z) :
  1 <= doy1 <= year_length y ->
  let ord := days_before_year y + doy1 in
  let x := doy1 - 1 - weekday_of_ordinal ord + 3 in
  iso_week_of_ordinal ord =
    if x <? 0 then (x + year_length (y - 1)) / 7 + 1
    else if x <? year_length y then x / 7 + 1
    else 1.
Proof.
  intros B ord x. unfold iso_week_of_ordinal.
  pose proof (weekday_of_ordinal_range ord) as W.
  pose proof (year_length_bounds y) as Ly.
  pose proof (year_length_bounds (y - 1)) as Ly1.
  pose proof (year_length_bounds (y + 1)) as Ly2.
  pose proof (days_before_year_succ (y - 1)) as S1.
  pose proof (days_before_year_succ y) as S2.
  replace (y - 1 + 1) with y in S1 by lia.
  fold ord.
  destruct (Z.ltb_spec x 0) as [X0 | X0];
    [ | destruct (Z.ltb_spec x (year_length y)) as [X1 | X1] ].
  - rewrite (days_to_yearsdays_unique (y - 1) (x + year_length (y - 1)));
      [ reflexivity | subst x ord; lia | subst x ord; lia ].
  - rewrite (days_to_yearsdays_unique y x);
      [ reflexivity | subst x ord; lia | subst x ord; lia ].
  - rewrite (days_to_yearsdays_unique (y + 1) (x - year_length y));
      [ | subst x ord; lia | subst x ord; lia ].
    subst x. div_lia.
Qed.

Lemma day_of_year_range (y m d : Z) :
  valid_date y m d -> 1 <= get_day_of_year y m d <= year_length y.
Proof.
  unfold valid_date, get_day_of_year, days_in_month, year_length, month_offset.
  intros [Hm Hd]. destruct (is_leapyear y); each_month Hm; revert Hd;
    eval_tables; lia.
Qed.

(** The last days of the year lie in December. *)
Lemma december_tail (y m d : Z) :
  valid_date y m d -> 362 <= get_day_of_year y m d ->
  m = 12 /\ d = get_day_of_year y m d - (year_length y - 31).
Proof.
  unfold valid_date, get_day_of_year, days_in_month, year_length, month_offset.
  intros [Hm Hd]. destruct (is_leapyear y); each_month Hm; revert Hd;
    eval_tables; lia.
Qed.

(** The estimate-and-correct week computation is the ISO week. *)
Lemma get_week_of_year_iso (y m d : Z) :
  valid_date y m d ->
  get_week_of_year y m d = iso_week_of_ordinal (ymd2ord y m d).
Proof.
  intros V.
  pose proof (day_of_year_range y m d V) as B.
  pose proof (december_tail y m d V) as D.
  unfold get_week_of_year. rewrite dayofweek_ordinal by apply V.
  unfold ymd2ord in *. rewrite <- Z.add_assoc.
  change (days_before_month y m + d) with (get_day_of_year y m d) in *.
  rewrite (iso_week_of_ordinal_cases y _ B).
  set (doy1 := get_day_of_year y m d) in *.
  set (ord := days_before_year y + doy1).
  pose proof (weekday_of_ordinal_range ord) as W.
  set (dow := weekday_of_ordinal ord) in *.
  cbv zeta. unfold year_length in *.
  case_leap y; case_leap (y - 1).
  all: repeat match goal with
       | |- context [?a >=? ?b] => destruct (Z.geb_spec a b)
       | |- context [?a <? ?b] => destruct (Z.ltb_spec a b)
       | |- context [?a >? ?b] => destruct (Z.gtb_spec a b)
       | |- context [?a =? ?b] => destruct (Z.eqb_spec a b)
       | |- _ => progress cbn [orb andb]
       end.
  all: div_lia.
Qed.

Lemma iso_week_of_ordinal_range (ord : Z) :
  1 <= iso_week_of_ordinal ord <= 53.
Proof.
  unfold iso_week_of_ordinal.
  set (d := ord - weekday_of_ordinal ord + 3 - epoch_ordinal).
  pose proof (days_to_yearsdays_spec d) as S.
  destruct (days_to_yearsdays d) as [y doy]. destruct S as [_ B].
  pose proof (year_length_bounds y). div_lia.
Qed.

Lemma iso_week_of_ordinal_correct (ord : Z) :
  is_iso_week ord (iso_week_of_ordinal ord).
Proof.
  unfold is_iso_week, iso_week_of_ordinal.
  set (thursday := ord - weekday_of_ordinal ord + 3).
  pose proof (days_to_yearsdays_spec (thursday - epoch_ordinal)) as S.
  destruct (days_to_yearsdays (thursday - epoch_ordinal)) as [y doy].
  destruct S as [E B]. exists y. rewrite days_before_year_succ.
  split; [ lia | ]. f_equal. f_equal. lia.
Qed.

(** A date of the calendar is determined by its ordinal. *)
Lemma ymd2ord_inj (y m d y' m' d' : Z) :
  valid_date y m d -> valid_date y' m' d' ->
  ymd2ord y m d = ymd2ord y' m' d' -> y = y' /\ m = m' /\ d = d'.
Proof.
  intros V V' E.
  pose proof (day_of_year_range y m d V) as B.
  pose proof (day_of_year_range y' m' d' V') as B'.
  unfold ymd2ord in E. rewrite <- !Z.add_assoc in E.
  change (days_before_month y m + d) with (get_day_of_year y m d) in E.
  change (days_before_month y' m' + d') with (get_day_of_year y' m' d') in E.
  pose proof (days_to_yearsdays_unique y (get_day_of_year y m d - 1)
                (days_before_year y + get_day_of_year y m d - epoch_ordinal)
                ltac:(lia) ltac:(lia)) as U.
  pose proof (days_to_yearsdays_unique y' (get_day_of_year y' m' d' - 1)
                (days_before_year y + get_day_of_year y m d - epoch_ordinal)
                ltac:(lia) ltac:(lia)) as U'.
  rewrite U in U'. injection U' as <- D. split; [ reflexivity | ].
  revert D. destruct V as [Hm Hd], V' as [Hm' Hd']. revert Hd Hd'.
  unfold get_day_of_year, days_in_month, month_offset.
  destruct (is_leapyear y); each_month Hm; each_month Hm'; eval_tables; lia.
Qed.

End CalendarFacts.

(** ** Timestamps *)
Module PandasFacts.
Import Pandas.

(** The fields of a converted instant: a date of the calendar whose
    ordinal is the day count, a time of day, and together the instant. *)
Lemma Timestamp_of_ms_spec (ms : Z) :
  let x := Timestamp_of_ms ms in
  Calendar.valid_date (year x) (month x) (day x) /\
  Calendar.ymd2ord (year x) (month x) (day x)
    = ms / 86400000 + Calendar.epoch_ordinal /\
  0 <= hour x < 24 /\ 0 <= minute x < 60 /\ 0 <= second x < 60 /\
  0 <= microsecond x < 1000000 /\
  ms_of_fields x = ms.
Proof.
  unfold Timestamp_of_ms, ms_of_fields.
  change (24 * 60 * 60 * 1000) with 86400000.
  change (1000 * 60 * 60) with 3600000. change (1000 * 60) with 60000.
  pose proof (CalendarFacts.civil_of_days_spec (ms / 86400000)) as C.
  destruct (Calendar.civil_of_days (ms / 86400000)) as [[y m] d].
  destruct C as [V O]. cbn [year month day hour minute second microsecond].
  rewrite O. repeat split; try apply V; CalendarFacts.div_lia.
Qed.

Lemma microsecond_whole_ms (ms : Z) :
  microsecond (Timestamp_of_ms ms) = ms mod 1000 * 1000.
Proof.
  unfold Timestamp_of_ms.
  destruct (Calendar.civil_of_days _) as [[y m] d]. cbn [microsecond].
  change (24 * 60 * 60 * 1000) with 86400000.
  change (1000 * 60 * 60) with 3600000. change (1000 * 60) with 60000.
  CalendarFacts.div_lia.
Qed.

Lemma Timestamp_of_ms_well_formed (ms : Z) : well_formed (Timestamp_of_ms ms).
Proof.
  destruct (Timestamp_of_ms_spec ms) as (V & _ & Hh & Hm & Hs & Hu & _).
  unfold well_formed. rewrite microsecond_whole_ms at 3.
  rewrite Z.mod_mul by lia. tauto.
Qed.

(** A well-formed timestamp is determined by the instant it denotes. *)
Lemma ms_of_fields_inj (x x' : Timestamp) :
  well_formed x -> well_formed x' -> ms_of_fields x = ms_of_fields x' ->
  x = x'.
Proof.
  destruct x as [y m d h mi s u], x' as [y' m' d' h' mi' s' u'].
  unfold well_formed, ms_of_fields.
  cbn [year month day hour minute second microsecond].
  intros (V & Hh & Hm & Hs & Hu & Hw) (V' & Hh' & Hm' & Hs' & Hu' & Hw') E.
  assert (O : Calendar.ymd2ord y m d = Calendar.ymd2ord y' m' d')
    by CalendarFacts.div_lia.
  destruct (CalendarFacts.ymd2ord_inj _ _ _ _ _ _ V V' O) as (-> & -> & ->).
  assert (h = h') by CalendarFacts.div_lia.
  assert (mi = mi') by CalendarFacts.div_lia.
  assert (s = s') by CalendarFacts.div_lia.
  assert (u = u') by CalendarFacts.div_lia.
  now subst.
Qed.

Lemma in_bounds_not_masked (ts : Z) : in_bounds ts = true -> masked ts = false.
Proof.
  unfold in_bounds, masked. rewrite andb_true_iff, !Z.leb_le, Z.eqb_neq.
  change max_ms with 9223372036854. change iNaT with (-9223372036854775808).
  lia.
Qed.

Lemma in_bounds_converts (ts : Z) : in_bounds ts = true -> converts ts = true.
Proof. unfold converts. intros ->. apply orb_true_r. Qed.


(** The bounds check on the zeroed entry lets through the masked entries
    and those in bounds. *)
Lemma in_bounds_zeroed (v : Z) :
  in_bounds (if masked v then 0 else v) = converts v.
Proof. unfold converts. now destruct (masked v). Qed.

(** The column conversion, entry by entry. *)
Lemma to_datetime_series_entries (values : list Z) :
  to_datetime_series values =
    if forallb converts values then Some (map datetime_of_ms values) else None.
Proof.
  unfold to_datetime_series, zero_masked.
  assert (F : forallb in_bounds (map (fun v => if masked v then 0 else v) values)
              = forallb converts values).
  { induction values as [ | v values IH ]; [ reflexivity | ].
    cbn [map forallb]. now rewrite IH, in_bounds_zeroed. }
  rewrite F. destruct (forallb converts values); [ | reflexivity ].
  f_equal. clear F. induction values as [ | v values IH ]; [ reflexivity | ].
  cbn [map combine]. rewrite IH. unfold datetime_of_ms.
  destruct (masked v); reflexivity.
Qed.

Lemma to_datetime_converts (ts : Z) :
  to_datetime ts = if converts ts then Some (datetime_of_ms ts) else None.
Proof.
  unfold to_datetime. rewrite to_datetime_series_entries. cbn [forallb map].
  rewrite andb_true_r. now destruct (converts ts).
Qed.

Lemma datetime_of_ms_in_bounds (ts : Z) :
  in_bounds ts = true -> datetime_of_ms ts = Stamp (Timestamp_of_ms ts).
Proof.
  intros B. unfold datetime_of_ms. now rewrite (in_bounds_not_masked ts B).
Qed.

Lemma start_time_of_ms_in_bounds (ts : Z) :
  in_bounds ts = true -> start_time_of_ms ts = str (Timestamp_of_ms ts).
Proof.
  intros B. unfold start_time_of_ms. now rewrite datetime_of_ms_in_bounds.
Qed.

Lemma to_datetime_in_bounds (ts : Z) :
  in_bounds ts = true -> to_datetime ts = Some (Stamp (Timestamp_of_ms ts)).
Proof.
  intros B. rewrite to_datetime_converts, (in_bounds_converts ts B).
  now rewrite datetime_of_ms_in_bounds.
Qed.

Lemma forallb_converts (col : list Z) :
  Forall (fun ts => converts ts = true) col -> forallb converts col = true.
Proof. intros F. apply forallb_forall. now apply Forall_forall. Qed.

Lemma to_datetime_series_Some (col : list Z) :
  Forall (fun ts => converts ts = true) col ->
  to_datetime_series col = Some (map datetime_of_ms col).
Proof.
  intros F. now rewrite to_datetime_series_entries, forallb_converts.
Qed.

Lemma to_datetime_series_inv (col : list Z) (xs : list datetime) :
  to_datetime_series col = Some xs ->
  Forall (fun ts => converts ts = true) col /\ xs = map datetime_of_ms col.
Proof.
  rewrite to_datetime_series_entries.
  destruct (forallb converts col) eqn:F; [ | discriminate ].
  intros [= <-]. split; [ | reflexivity ].
  apply Forall_forall. now apply forallb_forall.
Qed.

(** The column conversion raises exactly when an entry is neither the
    mark of the missing time nor in bounds. *)
Lemma to_datetime_series_None (col : list Z) :
  to_datetime_series col = None <->
  exists ts, In ts col /\ converts ts = false.
Proof.
  rewrite to_datetime_series_entries. split.
  - destruct (forallb converts col) eqn:F; [ discriminate | intros _ ].
    destruct (forallb_forall converts col) as [_ A].
    destruct (existsb (fun ts => negb (converts ts)) col) eqn:X.
    + apply existsb_exists in X as (ts & I & N). exists ts.
      split; [ assumption | now apply negb_true_iff ].
    + rewrite A in F; [ discriminate | ]. intros ts I.
      destruct (converts ts) eqn:C; [ reflexivity | ].
      assert (existsb (fun ts => negb (converts ts)) col = true)
        by (apply existsb_exists; exists ts; now rewrite C).
      congruence.
  - intros (ts & I & C). destruct (forallb converts col) eqn:F; [ | reflexivity ].
    rewrite forallb_forall in F. rewrite (F ts I) in C. discriminate.
Qed.

(** *** The printed form *)

Lemma length_append (a b : string) :
  String.length (a ++ b) = (String.length a + String.length b)%nat.
Proof. induction a as [ | c a IH ]; cbn; [ reflexivity | now rewrite IH ]. Qed.

(** Two concatenations with heads of equal length agree part by part. *)
Lemma append_inj (a a' b b' : string) :
  String.length a = String.length a' ->
  a ++ b = a' ++ b' -> a = a' /\ b = b'.
Proof.
  revert a'. induction a as [ | c a IH ]; intros [ | c' a' ]; cbn;
    try discriminate.
  - now split.
  - intros [= L] [= -> E]. destruct (IH a' L E) as [-> ->]. now split.
Qed.

Lemma length_zfill (width : nat) (n : Z) :
  String.length (zfill width n) = width.
Proof.
  revert n. induction width as [ | w IH ]; intros n; cbn [zfill].
  - reflexivity.
  - rewrite length_append, IH. cbn. lia.
Qed.

Lemma digit_inj (n m : Z) :
  0 <= n < 10 -> 0 <= m < 10 -> digit n = digit m -> n = m.
Proof.
  intros Hn Hm E. unfold digit in E.
  apply (f_equal nat_of_ascii) in E.
  rewrite !nat_ascii_embedding in E by lia. lia.
Qed.

(** A number below [10 ^ width] is determined by its [width] digits. *)
Lemma zfill_inj (width : nat) :
  forall n m : Z,
    0 <= n < 10 ^ Z.of_nat width -> 0 <= m < 10 ^ Z.of_nat width ->
    zfill width n = zfill width m -> n = m.
Proof.
  induction width as [ | w IH ]; intros n m Hn Hm E.
  - cbn in Hn, Hm. lia.
  - rewrite Nat2Z.inj_succ, Z.pow_succ_r in Hn, Hm by lia.
    cbn [zfill] in E.
    apply append_inj in E as [E1 E2]; [ | now rewrite !length_zfill ].
    injection E2 as E2.
    apply IH in E1; [ | CalendarFacts.div_lia .. ].
    apply digit_inj in E2; [ | CalendarFacts.div_lia .. ].
    CalendarFacts.div_lia.
Qed.

(** The years pandas can hold. *)
Lemma in_bounds_year (ts : Z) :
  in_bounds ts = true -> 1677 <= year (Timestamp_of_ms ts) <= 2262.
Proof.
  unfold in_bounds. rewrite andb_true_iff, !Z.leb_le.
  change max_ms with 9223372036854. intros B.
  unfold Timestamp_of_ms, Calendar.civil_of_days.
  change (24 * 60 * 60 * 1000) with 86400000.
  pose proof (CalendarFacts.days_to_yearsdays_spec (ts / 86400000)) as S.
  destruct (Calendar.days_to_yearsdays (ts / 86400000)) as [y doy].
  destruct S as [E D]. destruct (Calendar.find_month _ 0 doy) as [m d].
  cbn [year]. unfold Calendar.epoch_ordinal in E.
  assert (-106752 <= ts / 86400000 <= 106751) by CalendarFacts.div_lia.
  pose proof (CalendarFacts.days_before_year_succ y) as Sy.
  pose proof (CalendarFacts.year_length_bounds y) as Ly.
  split.
  - destruct (Z.le_gt_cases 1677 y) as [ | L ]; [ assumption | exfalso ].
    pose proof (CalendarFacts.days_before_year_mono (y + 1) 1677 ltac:(lia))
      as M.
    change (Calendar.days_before_year 1677) with 612147 in M. lia.
  - destruct (Z.le_gt_cases y 2262) as [ | L ]; [ assumption | exfalso ].
    pose proof (CalendarFacts.days_before_year_mono 2263 y ltac:(lia)) as M.
    change (Calendar.days_before_year 2263) with 826178 in M. lia.
Qed.

Lemma days_in_month_le (y m : Z) : Calendar.days_in_month y m <= 31.
Proof.
  unfold Calendar.days_in_month, Calendar.days_per_month_table.
  generalize (Z.to_nat (m - 1)). intros n.
  destruct (Calendar.is_leapyear y);
    do 13 (destruct n as [ | n ]; cbn [nth]; try lia).
Qed.

Lemma separator_inj (c : ascii) (a b : string) :
  String c "" ++ a = String c "" ++ b -> a = b.
Proof. cbn. now intros [= ]. Qed.

(** The printed form of a well-formed timestamp of a four-digit year
    gives its fields back. *)
Lemma str_inj (x x' : Timestamp) :
  well_formed x -> well_formed x' ->
  0 <= year x <= 9999 -> 0 <= year x' <= 9999 ->
  str x = str x' -> x = x'.
Proof.
  intros ([Vm Vd] & Hh & Hm & Hs & Hu & _) ([Vm' Vd'] & Hh' & Hm' & Hs' & Hu' & _)
    Y Y' E.
  pose proof (days_in_month_le (year x) (month x)).
  pose proof (days_in_month_le (year x') (month x')).
  destruct x as [y1 m1 d1 h1 mi1 s1 u1], x' as [y2 m2 d2 h2 mi2 s2 u2].
  cbn [year month day hour minute second microsecond] in *.
  unfold str, isoformat in E.
  cbn [year month day hour minute second microsecond] in E.
  repeat match type of E with
  | zfill ?w ?a ++ _ = zfill ?w ?b ++ _ =>
      let F := fresh "F" in
      apply append_inj in E as [F E]; [ | now rewrite !length_zfill ];
      apply zfill_inj in F; [ subst | cbn; lia .. ]
  | String.append (String ?c EmptyString) _ = _ => apply separator_inj in E
  end.
  assert (u1 = u2).
  { destruct (Z.eqb_spec u1 0), (Z.eqb_spec u2 0); try discriminate; try lia.
    apply separator_inj in E.
    apply zfill_inj in E; [ assumption | cbn; lia .. ]. }
  now subst.
Qed.


End PandasFacts.

(** C5, the claim as it stands fails outside the range of timestamps
    pandas can hold: a millisecond count of the year 2500 gives no entry
    at all, the conversion raises before any statement is sent; and the
    smallest 64-bit integer gives the entry of the missing time, whose
    numeric fields are NaN. *)
Lemma time_decomposer_raises_out_of_range :
  LogData.ts Sample.far_future_play = 16725225600000 /\
  Pandas.in_bounds 16725225600000 = false /\
  time_of_ms 16725225600000 = None /\
  time_data [Sample.far_future_play] = None /\
  process_log_file [Sample.far_future_play] Sample.session =
    (Db.Raise Db.OutOfBoundsDatetime, Sample.session) /\
  time_of_ms Pandas.iNaT =
    Some ("NaT", Pandas.NaN, Pandas.NaN, Pandas.NaN, Pandas.NaN, Pandas.NaN,
          Pandas.NaN).
Proof. repeat split; vm_compute; reflexivity. Qed.

(** C5, amended. For every millisecond timestamp that pandas can hold,
    the Time Decomposer yields one entry, always the same, whose seven
    fields all come from the one converted timestamp [x].  That [x] is
    the one well-formed reading of the instant: a date of the calendar, a
    time of day with its hour, minute, second and microsecond in range,
    together denoting [ts], and no other such breakdown denotes [ts]; the
    start_time printed from it gives the same fields back.  The weekday
    is the weekday of the (year, month, day) triple counted from
    Monday = 0 (the epoch day 0 being a Thursday), and the week is the
    ISO 8601 week of that date. *)
Theorem time_decomposer_consistent (ts : Z) :
  Pandas.in_bounds ts = true ->
  exists x : Pandas.Timestamp,
    Pandas.to_datetime ts = Some (Pandas.Stamp x) /\
    time_of_ms ts =
      Some (Pandas.str x, Pandas.Num (Pandas.hour x), Pandas.Num (Pandas.day x),
            Pandas.Num (Pandas.week x), Pandas.Num (Pandas.month x),
            Pandas.Num (Pandas.year x), Pandas.Num (Pandas.dayofweek x)) /\
    (forall row,
       LogData.ts row = ts ->
       time_data [row] = Some [time_entry (Pandas.Stamp x)]) /\
    (forall e e',
       time_of_ms ts = Some e -> time_of_ms ts = Some e' -> e = e') /\
    well_formed x /\
    ms_of_fields x = ts /\
    (forall x', well_formed x' -> ms_of_fields x' = ts -> x' = x) /\
    1677 <= Pandas.year x <= 2262 /\
    (forall x',
       well_formed x' -> 0 <= Pandas.year x' <= 9999 ->
       Pandas.str x' = Pandas.str x -> x' = x) /\
    Pandas.dayofweek x =
      Calendar.weekday_of_ordinal
        (Calendar.ymd2ord (Pandas.year x) (Pandas.month x) (Pandas.day x)) /\
    Pandas.dayofweek x = (ts / 86400000 + 3) mod 7 /\
    0 <= Pandas.dayofweek x <= 6 /\
    Calendar.is_iso_week
      (Calendar.ymd2ord (Pandas.year x) (Pandas.month x) (Pandas.day x))
      (Pandas.week x) /\
    1 <= Pandas.week x <= 53.
Proof.
  intros B. exists (Pandas.Timestamp_of_ms ts).
  pose proof (PandasFacts.to_datetime_in_bounds ts B) as E.
  pose proof (PandasFacts.Timestamp_of_ms_well_formed ts) as WF.
  pose proof (PandasFacts.in_bounds_year ts B) as Y.
  destruct (PandasFacts.Timestamp_of_ms_spec ts)
    as (V & O & _ & _ & _ & _ & R).
  set (x := Pandas.Timestamp_of_ms ts) in *.
  set (ord := Calendar.ymd2ord (Pandas.year x) (Pandas.month x) (Pandas.day x))
    in *.
  assert (W : Pandas.dayofweek x = Calendar.weekday_of_ordinal ord)
    by (apply CalendarFacts.dayofweek_ordinal, V).
  assert (K : Pandas.week x = Calendar.iso_week_of_ordinal ord)
    by (apply CalendarFacts.get_week_of_year_iso, V).
  assert (I : Calendar.is_iso_week ord (Pandas.week x))
    by (rewrite K; apply CalendarFacts.iso_week_of_ordinal_correct).
  repeat match goal with |- _ /\ _ => split end;
    trivial; try apply Y.
  - unfold time_of_ms. now rewrite E.
  - intros row <-. unfold time_data, t. cbn [map].
    rewrite PandasFacts.to_datetime_series_Some.
    + cbn [map option_map]. now rewrite PandasFacts.datetime_of_ms_in_bounds.
    + constructor; [ now apply PandasFacts.in_bounds_converts | constructor ].
  - congruence.
  - intros x' WF' R'. apply PandasFacts.ms_of_fields_inj; congruence.
  - intros x' WF' Y' S. apply PandasFacts.str_inj; trivial. lia.
  - rewrite W, O. unfold Calendar.weekday_of_ordinal, Calendar.epoch_ordinal.
    CalendarFacts.div_lia.
  - rewrite W. apply CalendarFacts.weekday_of_ordinal_range.
  - rewrite W. apply CalendarFacts.weekday_of_ordinal_range.
  - rewrite K. apply CalendarFacts.iso_week_of_ordinal_range.
  - rewrite K. apply CalendarFacts.iso_week_of_ordinal_range.
Qed.

(** The first timestamp of the notebook's log file is in bounds; its
    entry is the one the notebook prints. *)
Lemma time_decomposer_consistent_witness :
  Pandas.in_bounds 1541903636796 = true /\
  time_of_ms 1541903636796 =
    Some ("2018-11-11 02:33:56.796000", Pandas.Num 2, Pandas.Num 11,
          Pandas.Num 45, Pandas.Num 11, Pandas.Num 2018, Pandas.Num 6) /\
  exists x : Pandas.Timestamp,
    Pandas.to_datetime 1541903636796 = Some (Pandas.Stamp x) /\
    time_of_ms 1541903636796 =
      Some (Pandas.str x, Pandas.Num (Pandas.hour x), Pandas.Num (Pandas.day x),
            Pandas.Num (Pandas.week x), Pandas.Num (Pandas.month x),
            Pandas.Num (Pandas.year x), Pandas.Num (Pandas.dayofweek x)) /\
    (forall row, LogData.ts row = 1541903636796 ->
                 time_data [row] = Some [time_entry (Pandas.Stamp x)]) /\
    (forall e e', time_of_ms 1541903636796 = Some e ->
                  time_of_ms 1541903636796 = Some e' -> e = e') /\
    well_formed x /\
    ms_of_fields x = 1541903636796 /\
    (forall x', well_formed x' -> ms_of_fields x' = 1541903636796 -> x' = x) /\
    1677 <= Pandas.year x <= 2262 /\
    (forall x',
       well_formed x' -> 0 <= Pandas.year x' <= 9999 ->
       Pandas.str x' = Pandas.str x -> x' = x) /\
    Pandas.dayofweek x =
      Calendar.weekday_of_ordinal
        (Calendar.ymd2ord (Pandas.year x) (Pandas.month x) (Pandas.day x)) /\
    Pandas.dayofweek x = (1541903636796 / 86400000 + 3) mod 7 /\
    0 <= Pandas.dayofweek x <= 6 /\
    Calendar.is_iso_week
      (Calendar.ymd2ord (Pandas.year x) (Pandas.month x) (Pandas.day x))
      (Pandas.week x) /\
    1 <= Pandas.week x <= 53.
Proof.
  split; [ reflexivity | ]. split; [ vm_compute; reflexivity | ].
  apply (time_decomposer_consistent 1541903636796). reflexivity.
Defined.

(** ** The extraction cells *)
Section Extraction.

Lemma is_NextSong_iff (r : LogData.row) :
  is_NextSong r = true <-> LogData.page r = Some "NextSong".
Proof.
  unfold is_NextSong. destruct (LogData.page r) as [p | ].
  - rewrite String.eqb_eq. split; congruence.
  - split; discriminate.
Qed.

Lemma is_NextSong_false (r : LogData.row) :
  LogData.page r <> Some "NextSong" -> is_NextSong r = false.
Proof.
  intros H. apply not_true_is_false. now rewrite is_NextSong_iff.
Qed.

(** The filter on the page drops an event of another page from the
    data frame and keeps a play event at its place. *)
Lemma filter_NextSong_insert (log1 log2 : list LogData.row) (e : LogData.row) :
  filter_NextSong (log1 ++ e :: log2) =
  (filter_NextSong log1 ++ (if is_NextSong e then [e] else [])
   ++ filter_NextSong log2)%list.
Proof.
  unfold filter_NextSong. rewrite filter_app. cbn [filter].
  now destruct (is_NextSong e).
Qed.

Lemma filter_NextSong_drop (log1 log2 : list LogData.row) (e : LogData.row) :
  LogData.page e <> Some "NextSong" ->
  filter_NextSong (log1 ++ e :: log2) = filter_NextSong (log1 ++ log2).
Proof.
  intros H. rewrite filter_NextSong_insert, (is_NextSong_false e H).
  unfold filter_NextSong. now rewrite filter_app.
Qed.

Lemma filter_NextSong_none (log : list LogData.row) :
  Forall (fun e => LogData.page e <> Some "NextSong") log ->
  filter_NextSong log = [].
Proof.
  induction 1 as [ | e log H _ IH ]; [ reflexivity | ].
  unfold filter_NextSong in *. cbn [filter].
  now rewrite (is_NextSong_false e H).
Qed.

End Extraction.

(** C7. The Song/Artist Extractor is a projection: every record of the
    song data frame gives one song tuple (song_id, title, artist_id, year,
    duration) and one artist tuple (artist_id, name, location, latitude,
    longitude) holding the record's own values, a missing latitude or
    longitude (NaN in the frame) included; equal inputs give equal rows;
    the record of the notebook gives the rows the notebook shows. *)
Theorem song_artist_extractor_projection :
  (forall r : SongData.row,
     song_tuples [r] =
       [(SongData.song_id r, SongData.title r, SongData.artist_id r,
         SongData.year r, SongData.duration r)] /\
     artist_tuples [r] =
       [(SongData.artist_id r, SongData.artist_name r,
         SongData.artist_location r, SongData.artist_latitude r,
         SongData.artist_longitude r)]) /\
  (forall df : list SongData.row,
     List.length (song_tuples df) = List.length df /\
     List.length (artist_tuples df) = List.length df) /\
  (forall (df : list SongData.row) (i : nat) (r : SongData.row),
     nth_error df i = Some r ->
     nth_error (song_tuples df) i =
       Some (SongData.song_id r, SongData.title r, SongData.artist_id r,
             SongData.year r, SongData.duration r) /\
     nth_error (artist_tuples df) i =
       Some (SongData.artist_id r, SongData.artist_name r,
             SongData.artist_location r, SongData.artist_latitude r,
             SongData.artist_longitude r)) /\
  (forall df df' : list SongData.row,
     df = df' ->
     song_tuples df = song_tuples df' /\
     artist_tuples df = artist_tuples df') /\
  song_tuples
    [SongData.mkrow 1 (Some "AR7G5I41187FB4CE6C") nan nan
       (Some "London, England") (Some "Adam Ant")
       (Some "SONHOTT12A8C13493C") (Some "Something Girls")
       233.40363%float 1982] =
    [(Some "SONHOTT12A8C13493C", Some "Something Girls",
      Some "AR7G5I41187FB4CE6C", 1982, 233.40363%float)] /\
  artist_tuples
    [SongData.mkrow 1 (Some "AR7G5I41187FB4CE6C") nan nan
       (Some "London, England") (Some "Adam Ant")
       (Some "SONHOTT12A8C13493C") (Some "Something Girls")
       233.40363%float 1982] =
    [(Some "AR7G5I41187FB4CE6C", Some "Adam Ant", Some "London, England",
      nan, nan)] /\
  Pandas.isna nan = true.
Proof.
  repeat split.
  - unfold song_tuples, song_df. apply length_map.
  - unfold artist_tuples, artist_df. apply length_map.
  - unfold song_tuples, song_df. now rewrite nth_error_map, H.
  - unfold artist_tuples, artist_df. now rewrite nth_error_map, H.
  - now subst.
  - now subst.
Qed.

(** C8. The user rows come from the filtered data frame only: the batch
    holds, in order, one tuple (userId, firstName, lastName, gender, level)
    for every event that passed the filter on the page, so an event of
    another page adds nothing whatever its user id, a play event adds its
    tuple, and the same user id appears as often as it has play events. *)
Theorem user_rows_one_per_play_event (log : list LogData.row) :
  user_tuples (filter_NextSong log) =
    map (fun r => (LogData.userId r, LogData.firstName r, LogData.lastName r,
                   LogData.gender r, LogData.level r))
        (filter is_NextSong log) /\
  List.length (user_tuples (filter_NextSong log)) =
    List.length (filter is_NextSong log) /\
  map Db.user_key (user_tuples (filter_NextSong log)) =
    map LogData.userId (filter is_NextSong log) /\
  (forall (log1 log2 : list LogData.row) (e : LogData.row),
     user_tuples (filter_NextSong (log1 ++ e :: log2)) =
       (user_tuples (filter_NextSong log1)
        ++ (if is_NextSong e
            then [(LogData.userId e, LogData.firstName e, LogData.lastName e,
                   LogData.gender e, LogData.level e)]
            else [])
        ++ user_tuples (filter_NextSong log2))%list) /\
  user_tuples
    (filter_NextSong [Sample.event0; Sample.home_view; Sample.event1]) =
    [(Some "69", Some "Anabelle", Some "Simpson", Some "F", Some "free");
     (Some "69", Some "Anabelle", Some "Simpson", Some "F", Some "free")].
Proof.
  unfold user_tuples, user_df. repeat split.
  - apply length_map.
  - unfold filter_NextSong. rewrite map_map. reflexivity.
  - intros log1 log2 e. rewrite filter_NextSong_insert, !map_app.
    now destruct (is_NextSong e).
Qed.

(** C4 as stated fails: a play event with an empty or a missing user id
    gives a user row, and a page view with a user id gives none. *)
Lemma user_extractor_keeps_empty_user_id :
  LogData.userId Sample.anonymous_play = Some "" /\
  user_tuples (filter_NextSong [Sample.anonymous_play]) =
    [(Some "", None, None, None, Some "free")] /\
  LogData.userId Sample.unidentified_play = None /\
  user_tuples (filter_NextSong [Sample.unidentified_play]) =
    [(None, None, None, None, Some "free")] /\
  LogData.userId Sample.home_view = Some "69" /\
  user_tuples (filter_NextSong [Sample.home_view]) = [].
Proof. repeat split. Qed.

(** C4, amended. The User Extractor gives exactly one user tuple
    (userId, firstName, lastName, gender, level) for an event whose page is
    "NextSong", whatever its user id, and none for an event of another
    page. *)
Theorem user_extractor_follows_page_filter (e : LogData.row) :
  user_tuples (filter_NextSong [e]) =
    (if is_NextSong e
     then [(LogData.userId e, LogData.firstName e, LogData.lastName e,
            LogData.gender e, LogData.level e)]
     else []) /\
  (is_NextSong e = true <-> LogData.page e = Some "NextSong").
Proof.
  split; [ | apply is_NextSong_iff ].
  unfold user_tuples, user_df, filter_NextSong. cbn [filter].
  now destruct (is_NextSong e).
Qed.

(** ** The loader of the users table *)
Section UserLoader.

Lemma same_user_iff (r r' : user_tuple) :
  Db.same_user r r' = true <-> Db.user_key r = Db.user_key r'.
Proof.
  unfold Db.same_user.
  destruct (Db.user_key r) as [a | ], (Db.user_key r') as [b | ];
    try rewrite String.eqb_eq; split; congruence.
Qed.

Lemma existsb_same_user (r : user_tuple) (table : list user_tuple) :
  existsb (Db.same_user r) table = true <->
  In (Db.user_key r) (map Db.user_key table).
Proof.
  rewrite existsb_exists, in_map_iff. split.
  - intros (r' & I & E). apply same_user_iff in E. now exists r'.
  - intros (r' & E & I). exists r'. split; trivial. now apply same_user_iff.
Qed.

Lemma user_key_with_level (level : option string) (r : user_tuple) :
  Db.user_key (Db.with_level level r) = Db.user_key r.
Proof. now destruct r as [[[[u f] l] g] v]. Qed.

(** An upsert keeps the stored user ids and adds the new one at the end
    when it is not stored yet. *)
Lemma upsert_user_keys (table : list user_tuple) (r : user_tuple) :
  map Db.user_key (Db.upsert_user table r) =
    if existsb (Db.same_user r) table then map Db.user_key table
    else (map Db.user_key table ++ [Db.user_key r])%list.
Proof.
  unfold Db.upsert_user. destruct (existsb (Db.same_user r) table).
  - rewrite map_map. apply map_ext. intros r'.
    destruct (Db.same_user r r'); [ apply user_key_with_level | reflexivity ].
  - now rewrite map_app.
Qed.

Lemma upsert_user_NoDup (table : list user_tuple) (r : user_tuple) :
  NoDup (map Db.user_key table) ->
  NoDup (map Db.user_key (Db.upsert_user table r)) /\
  In (Db.user_key r) (map Db.user_key (Db.upsert_user table r)) /\
  (forall k, In k (map Db.user_key table) ->
             In k (map Db.user_key (Db.upsert_user table r))).
Proof.
  intros N. rewrite upsert_user_keys.
  destruct (existsb (Db.same_user r) table) eqn:E.
  - apply existsb_same_user in E. now repeat split.
  - assert (~ In (Db.user_key r) (map Db.user_key table)) as NI.
    { rewrite <- existsb_same_user, E. discriminate. }
    repeat split.
    + apply NoDup_app; repeat split; trivial.
      * constructor; [ intros [] | constructor ].
      * intros k I [<- | []]. contradiction.
    + apply in_or_app. right. now left.
    + intros k I. apply in_or_app. now left.
Qed.

(** Loading a batch leaves one row per user id and a row for every user
    id of the batch. *)
Lemma upsert_users_NoDup (rows table : list user_tuple) :
  NoDup (map Db.user_key table) ->
  NoDup (map Db.user_key (fold_left Db.upsert_user rows table)) /\
  (forall k, In k (map Db.user_key table) \/ In k (map Db.user_key rows) ->
             In k (map Db.user_key (fold_left Db.upsert_user rows table))).
Proof.
  revert table. induction rows as [ | r rows IH ]; intros table N.
  - split; [ exact N | ]. intros k [I | []]. exact I.
  - cbn [fold_left]. destruct (upsert_user_NoDup table r N) as (N' & I' & K').
    destruct (IH _ N') as (N'' & K''). split; [ exact N'' | ].
    intros k [I | [<- | I]]; apply K''; auto.
Qed.

End UserLoader.

(** C6 as stated fails: the start_time of a time entry is [str(x)], which
    prints the milliseconds of these instants as six digits. *)
Lemma two_play_events_start_time_digits :
  option_map (map Db.time_key)
    (time_tuples (filter_NextSong [Sample.event0; Sample.event1])) =
    Some ["2018-11-11 02:33:56.796000"; "2018-11-11 02:36:10.796000"] /\
  option_map (map Db.time_key)
    (time_tuples (filter_NextSong [Sample.event0; Sample.event1])) <>
    Some ["2018-11-11 02:33:56.796"; "2018-11-11 02:36:10.796"].
Proof.
  assert (E : option_map (map Db.time_key)
                (time_tuples (filter_NextSong [Sample.event0; Sample.event1])) =
              Some ["2018-11-11 02:33:56.796000"; "2018-11-11 02:36:10.796000"])
    by (vm_compute; reflexivity).
  split; [ exact E | rewrite E; discriminate ].
Qed.

(** C6, amended. A log of two "NextSong" events of user "69" at the
    timestamps 1541903636796 and 1541903770796 gives two time entries with
    start_time "2018-11-11 02:33:56.796000" and "2018-11-11 02:36:10.796000"
    (hour 2, day 11, week 45, month 11, year 2018, weekday 6) and two user
    tuples for "69"; once the loader has upserted them into a users table
    that has one row per user id, there is exactly one row for "69". *)
Theorem two_play_events_scenario (e1 e2 : LogData.row) :
  LogData.page e1 = Some "NextSong" -> LogData.page e2 = Some "NextSong" ->
  LogData.userId e1 = Some "69" -> LogData.userId e2 = Some "69" ->
  LogData.ts e1 = 1541903636796 -> LogData.ts e2 = 1541903770796 ->
  time_tuples (filter_NextSong [e1; e2]) =
    Some [("2018-11-11 02:33:56.796000", Pandas.Num 2, Pandas.Num 11,
           Pandas.Num 45, Pandas.Num 11, Pandas.Num 2018, Pandas.Num 6);
          ("2018-11-11 02:36:10.796000", Pandas.Num 2, Pandas.Num 11,
           Pandas.Num 45, Pandas.Num 11, Pandas.Num 2018, Pandas.Num 6)] /\
  map Db.user_key (user_tuples (filter_NextSong [e1; e2])) =
    [Some "69"; Some "69"] /\
  (forall table : list user_tuple,
     NoDup (map Db.user_key table) ->
     let stored :=
       fold_left Db.upsert_user (user_tuples (filter_NextSong [e1; e2]))
                 table in
     NoDup (map Db.user_key stored) /\
     In (Some "69") (map Db.user_key stored)) /\
  map Db.user_key
    (fold_left Db.upsert_user (user_tuples (filter_NextSong [e1; e2])) []) =
    [Some "69"].
Proof.
  intros P1 P2 U1 U2 T1 T2.
  apply is_NextSong_iff in P1, P2.
  assert (F : filter_NextSong [e1; e2] = [e1; e2]).
  { unfold filter_NextSong. cbn [filter]. now rewrite P1, P2. }
  rewrite F.
  assert (K : map Db.user_key (user_tuples [e1; e2]) = [Some "69"; Some "69"]).
  { cbn. now rewrite U1, U2. }
  repeat split.
  - unfold time_tuples, time_data, t. cbn [map]. rewrite T1, T2.
    vm_compute. reflexivity.
  - exact K.
  - now apply upsert_users_NoDup.
  - apply upsert_users_NoDup; trivial. right. rewrite K. now left.
  - cbn [user_tuples user_df map fold_left].
    rewrite !upsert_user_keys. cbn [existsb map app Db.upsert_user].
    unfold Db.same_user at 1. cbn [Db.user_key]. rewrite U1, U2.
    reflexivity.
Qed.

(** The first two records of the notebook's log file. *)
Lemma two_play_events_scenario_witness :
  time_tuples (filter_NextSong [Sample.event0; Sample.event1]) =
    Some [("2018-11-11 02:33:56.796000", Pandas.Num 2, Pandas.Num 11,
           Pandas.Num 45, Pandas.Num 11, Pandas.Num 2018, Pandas.Num 6);
          ("2018-11-11 02:36:10.796000", Pandas.Num 2, Pandas.Num 11,
           Pandas.Num 45, Pandas.Num 11, Pandas.Num 2018, Pandas.Num 6)] /\
  map Db.user_key
      (user_tuples (filter_NextSong [Sample.event0; Sample.event1])) =
    [Some "69"; Some "69"] /\
  (forall table : list user_tuple,
     NoDup (map Db.user_key table) ->
     let stored :=
       fold_left Db.upsert_user
         (user_tuples (filter_NextSong [Sample.event0; Sample.event1])) table in
     NoDup (map Db.user_key stored) /\
     In (Some "69") (map Db.user_key stored)) /\
  map Db.user_key
    (fold_left Db.upsert_user
       (user_tuples (filter_NextSong [Sample.event0; Sample.event1])) []) =
    [Some "69"].
Proof.
  apply (two_play_events_scenario Sample.event0 Sample.event1); reflexivity.
Defined.

(** ** The songplay loop *)
Ltac session_simpl :=
  unfold Db.set_fetched, Db.set_working, Db.record_call, Db.set_committed;
  cbn [Db.working Db.committed Db.calls Db.rejects Db.fetched];
  rewrite <- ?app_assoc; cbn [app].

Section SongplayLoop.

Lemma run_song_select_catalog (tb tb' : Db.Tables) (title name : option string)
    (duration : float) :
  Db.songs tb = Db.songs tb' -> Db.artists tb = Db.artists tb' ->
  Db.run_song_select tb title name duration =
  Db.run_song_select tb' title name duration.
Proof. unfold Db.run_song_select. now intros -> ->. Qed.

Lemma songplay_row_catalog (tb tb' : Db.Tables) (row : LogData.row) :
  Db.songs tb = Db.songs tb' -> Db.artists tb = Db.artists tb' ->
  songplay_row tb row = songplay_row tb' row.
Proof.
  intros S A. unfold songplay_row, resolve_ids.
  now rewrite (run_song_select_catalog tb tb' _ _ _ S A).
Qed.

Lemma songplay_data_fetched (tb : Db.Tables) (row : LogData.row) :
  songplay_data
    (hd_error (Db.run_song_select tb (LogData.song row) (LogData.artist row)
                                  (LogData.length row))) row =
  if Pandas.converts (LogData.ts row) then Some (songplay_row tb row)
  else None.
Proof.
  unfold songplay_data, songplay_row, resolve_ids, start_time_of_ms.
  rewrite PandasFacts.to_datetime_converts.
  destruct (Db.run_song_select _ _ _ _) as [ | [sid aid] rest ]; cbn [hd_error];
    now destruct (Pandas.converts (LogData.ts row)).
Qed.

(** A list of one row is one page. *)
Lemma execute_values_one {A : Type} (query : list A -> Db.statement)
    (apply : list A -> Db.Tables -> Db.Tables) (x : A) (s : Db.Session) :
  Db.execute_values query apply [x] s =
  Db.send (query [x])
    (fun s => Db.set_fetched [] (Db.set_working (apply [x] (Db.working s)) s))
    s.
Proof.
  unfold Db.execute_values. change (Db.paginate [x]) with [[x]].
  cbn [Db.send_pages]. unfold Db.bind.
  destruct (Db.send _ _ s) as [[[] | e] s1]; reflexivity.
Qed.

(** One pass of the loop, statement by statement. *)
Lemma songplay_step_run (row : LogData.row) (s : Db.Session) :
  let tb := Db.working s in
  let q1 := Db.song_select (LogData.song row) (LogData.artist row)
                           (LogData.length row) in
  let q2 := Db.songplay_table_insert [songplay_row tb row] in
  let h := Db.calls s in
  songplay_step row s =
    if Db.rejects s h q1 then (Db.Raise Db.DatabaseError, Db.record_call q1 s)
    else if negb (Pandas.converts (LogData.ts row))
    then (Db.Raise Db.OutOfBoundsDatetime,
          Db.mkSession (Db.committed s) tb
            (tl (Db.run_song_select tb (LogData.song row) (LogData.artist row)
                                    (LogData.length row)))
            (h ++ [q1]) (Db.rejects s))
    else if Db.rejects s (h ++ [q1]) q2
    then (Db.Raise Db.DatabaseError,
          Db.mkSession (Db.committed s) tb
            (tl (Db.run_song_select tb (LogData.song row) (LogData.artist row)
                                    (LogData.length row)))
            (h ++ [q1; q2]) (Db.rejects s))
    else if Db.rejects s (h ++ [q1; q2]) Db.commit
    then (Db.Raise Db.DatabaseError,
          Db.mkSession (Db.committed s) (Db.working (after_step row s)) []
            (h ++ [q1; q2; Db.commit]) (Db.rejects s))
    else (Db.Ok tt, after_step row s).
Proof.
  cbv zeta.
  unfold songplay_step, Db.bind, Db.cur_execute_song_select, Db.send.
  destruct (Db.rejects s (Db.calls s) _) eqn:R1; [ reflexivity | ].
  unfold Db.cur_fetchone. session_simpl.
  pose proof (songplay_data_fetched (Db.working s) row) as D.
  destruct (Db.run_song_select (Db.working s) _ _ _) as [ | r rest ] eqn:L;
    cbn [hd_error] in D; session_simpl.
  all: rewrite D; destruct (Pandas.converts (LogData.ts row));
         cbn [negb Db.of_option Db.ret Db.raise tl]; try reflexivity.
  all: unfold Db.execute_values_songplay; rewrite execute_values_one;
         unfold Db.conn_commit, Db.send; session_simpl.
  all: destruct (Db.rejects s (Db.calls s ++ [_]) _) eqn:R2;
         session_simpl; [ reflexivity | ].
  all: destruct (Db.rejects s (Db.calls s ++ [_; _]) _) eqn:R3;
         session_simpl; reflexivity.
Qed.

Lemma songplay_statements_catalog (tb tb' : Db.Tables) (row : LogData.row) :
  Db.songs tb = Db.songs tb' -> Db.artists tb = Db.artists tb' ->
  songplay_statements tb row = songplay_statements tb' row.
Proof.
  intros S A. unfold songplay_statements.
  now rewrite (songplay_row_catalog tb tb' row S A).
Qed.

Lemma pass_fails_catalog (rej : list Db.statement -> Db.statement -> bool)
    (tb tb' : Db.Tables) (h : list Db.statement) (row : LogData.row)
    (e : Db.exn) (sent : list Db.statement) :
  Db.songs tb = Db.songs tb' -> Db.artists tb = Db.artists tb' ->
  pass_fails rej tb h row e sent -> pass_fails rej tb' h row e sent.
Proof.
  intros S A. unfold pass_fails.
  now rewrite (songplay_row_catalog tb tb' row S A).
Qed.

Lemma songplay_loop_cons (row : LogData.row) (rest : list LogData.row)
    (s : Db.Session) :
  songplay_loop (row :: rest) s =
    match songplay_step row s with
    | (Db.Ok _, s1) => songplay_loop rest s1
    | (Db.Raise e, s1) => (Db.Raise e, s1)
    end.
Proof. reflexivity. Qed.

Lemma accepted_app (rej : list Db.statement -> Db.statement -> bool)
    (new1 new2 : list Db.statement) :
  forall history,
    accepted rej history (new1 ++ new2) <->
    accepted rej history new1 /\ accepted rej (history ++ new1) new2.
Proof.
  induction new1 as [ | q new1 IH ]; intros history; cbn [accepted app].
  - rewrite app_nil_r. tauto.
  - rewrite IH, <- app_assoc. cbn [app]. tauto.
Qed.

(** What a run of the loop leaves behind, whether it ends normally or in
    an exception: [k] complete passes, each with its timestamp converted
    and its three statements accepted, their rows committed; then either
    the end of the frame, or the pass over the next row and the step it
    failed at. *)
Lemma songplay_loop_run (df : list LogData.row) :
  forall (s s' : Db.Session) (r : Db.result unit),
    songplay_loop df s = (r, s') ->
    exists k : nat,
      (k <= List.length df)%nat /\
      Forall ts_converts (firstn k df) /\
      accepted (Db.rejects s) (Db.calls s)
        (flat_map (songplay_statements (Db.working s)) (firstn k df)) /\
      Db.songplays (Db.committed s') =
        match k with
        | O => Db.songplays (Db.committed s)
        | S _ => (Db.songplays (Db.working s)
                  ++ map (songplay_row (Db.working s)) (firstn k df))%list
        end /\
      Db.rejects s' = Db.rejects s /\
      match r with
      | Db.Ok _ =>
          k = List.length df /\
          Db.calls s' =
            (Db.calls s
             ++ flat_map (songplay_statements (Db.working s)) df)%list /\
          Db.songplays (Db.working s') =
            (Db.songplays (Db.working s)
             ++ map (songplay_row (Db.working s)) df)%list
      | Db.Raise e =>
          exists (row : LogData.row) (sent : list Db.statement),
            nth_error df k = Some row /\
            pass_fails (Db.rejects s) (Db.working s)
              (Db.calls s
               ++ flat_map (songplay_statements (Db.working s)) (firstn k df))
              row e sent /\
            Db.calls s' =
              (Db.calls s
               ++ flat_map (songplay_statements (Db.working s)) (firstn k df)
               ++ sent)%list
      end.
Proof.
  induction df as [ | row rest IH ]; intros s s' r.
  - cbn [songplay_loop Db.ret]. intros [= <- <-]. exists O.
    cbn [firstn flat_map map List.length app accepted]. rewrite !app_nil_r.
    repeat split; auto.
  - rewrite songplay_loop_cons, songplay_step_run. cbv zeta.
    destruct (Db.rejects s (Db.calls s) _) eqn:R1;
      [ | destruct (Pandas.converts (LogData.ts row)) eqn:B; cbn [negb];
          [ destruct (Db.rejects s (Db.calls s ++ [_]) _) eqn:R2;
            [ | destruct (Db.rejects s (Db.calls s ++ [_; _]) _) eqn:R3 ] | ] ].
    4: {
      (* the pass completed: the rest of the loop runs from [after_step] *)
      intros H.
      destruct (IH _ _ _ H) as (k & Hk & Hb & Ha & Ht & Hr & Hres).
      set (s1 := after_step row s) in *.
      assert (E : forall x, songplay_row (Db.working s1) x =
                            songplay_row (Db.working s) x)
        by (intros x; now apply songplay_row_catalog).
      assert (E' : forall x, songplay_statements (Db.working s1) x =
                             songplay_statements (Db.working s) x)
        by (intros x; now apply songplay_statements_catalog).
      assert (C1 : Db.calls s1 =
                   (Db.calls s ++ songplay_statements (Db.working s) row)%list)
        by reflexivity.
      assert (W1 : Db.songplays (Db.working s1) =
                   (Db.songplays (Db.working s)
                    ++ [songplay_row (Db.working s) row])%list)
        by reflexivity.
      assert (J1 : Db.rejects s1 = Db.rejects s) by reflexivity.
      exists (S k). cbn [firstn flat_map map List.length].
      rewrite !(flat_map_ext _ _ E'), !(map_ext _ _ E), C1, W1, J1 in *.
      rewrite <- !app_assoc in *. cbn [app] in Ht.
      repeat match goal with |- _ /\ _ => split end.
      + lia.
      + constructor; [ exact B | exact Hb ].
      + apply accepted_app. split; [ | exact Ha ].
        unfold songplay_statements. cbn [accepted app].
        rewrite <- !app_assoc. cbn [app]. now rewrite R1, R2, R3.
      + rewrite Ht. destruct k; [ | reflexivity ].
        cbn [firstn map]. subst s1. reflexivity.
      + exact Hr.
      + destruct r as [ [] | e ].
        * destruct Hres as (-> & Hc & Hw). now repeat split.
        * destruct Hres as (row' & sent & Hn & Hf & Hc).
          rewrite (flat_map_ext _ _ E') in Hc, Hf.
          rewrite <- app_assoc in Hc.
          exists row', sent. cbn [nth_error]. rewrite <- ?app_assoc.
          split; [ exact Hn | ]. split; [ | exact Hc ].
          revert Hf. apply pass_fails_catalog; reflexivity. }
    (* the pass raised: nothing more is committed *)
    all: intros [= <- <-]; exists O;
      cbn [firstn flat_map map List.length app Db.calls Db.committed
           Db.rejects Db.record_call accepted nth_error];
      rewrite ?app_nil_r;
      (repeat match goal with |- _ /\ _ => split end);
      auto; try lia;
      eexists row, _; (split; [ reflexivity | ]);
      (split; [ | reflexivity ]); unfold pass_fails.
    + left. now repeat split.
    + right. right. left. now repeat split.
    + right. right. right. now repeat split.
    + right. left. now repeat split.
Qed.
End SongplayLoop.

Section Resolver.

(** With a server that refuses nothing and timestamps that convert the
    loop runs to its end. *)
Lemma songplay_loop_completes (df : list LogData.row) :
  forall s : Db.Session,
    accepts_all s -> Forall ts_converts df ->
    exists s', songplay_loop df s = (Db.Ok tt, s').
Proof.
  induction df as [ | row rest IH ]; intros s A F.
  - now exists s.
  - inversion F as [ | ? ? B F' ]; subst. unfold ts_converts in B.
    rewrite songplay_loop_cons, songplay_step_run. cbv zeta.
    rewrite !A, B. cbn [negb]. now apply IH.
Qed.



Lemma songplay_row_in_bounds (tb : Db.Tables) (row : LogData.row) :
  ts_in_bounds row ->
  songplay_row tb row =
    (Pandas.str (Pandas.Timestamp_of_ms (LogData.ts row)),
     LogData.userId row, LogData.level row,
     fst (resolve_ids tb row), snd (resolve_ids tb row),
     LogData.sessionId row, LogData.location row, LogData.userAgent row).
Proof.
  intros B. unfold songplay_row.
  now rewrite (PandasFacts.start_time_of_ms_in_bounds _ B).
Qed.



End Resolver.



(** C2. When the lookup of a play event returns no row, the fact row is
    assembled with a null song_id and a null artist_id, it is inserted and
    committed like any other, and the pass ends normally. *)
Theorem no_match_gives_null_ids (row : LogData.row) (s : Db.Session) :
  accepts_all s ->
  ts_in_bounds row ->
  Db.run_song_select (Db.working s) (LogData.song row) (LogData.artist row)
                     (LogData.length row) = [] ->
  let data :=
    (Pandas.str (Pandas.Timestamp_of_ms (LogData.ts row)),
     LogData.userId row, LogData.level row, @None string, @None string,
     LogData.sessionId row, LogData.location row, LogData.userAgent row) in
  songplay_data None row = Some data /\
  exists s' : Db.Session,
    songplay_step row s = (Db.Ok tt, s') /\
    Db.calls s' =
      (Db.calls s
       ++ [Db.song_select (LogData.song row) (LogData.artist row)
                          (LogData.length row);
           Db.songplay_table_insert [data];
           Db.commit])%list /\
    Db.songplays (Db.committed s') =
      (Db.songplays (Db.working s) ++ [data])%list.
Proof.
  intros A B L data.
  assert (E : songplay_row (Db.working s) row = data).
  { rewrite (songplay_row_in_bounds _ _ B). unfold resolve_ids.
    now rewrite L. }
  split.
  - unfold songplay_data. now rewrite (PandasFacts.to_datetime_in_bounds _ B).
  - exists (after_step row s). rewrite songplay_step_run. cbv zeta.
    rewrite !A, (PandasFacts.in_bounds_converts _ B). cbn [negb].
    unfold after_step, songplay_statements. rewrite E.
    now repeat split.
Qed.

(** The first play event of the notebook: its song is not in the catalog. *)
Lemma no_match_gives_null_ids_witness :
  songplay_data None Sample.event0 =
    Some ("2018-11-11 02:33:56.796000", Some "69", Some "free", None, None,
          455, Sample.city, Sample.agent) /\
  exists s' : Db.Session,
    songplay_step Sample.event0 Sample.session = (Db.Ok tt, s') /\
    Db.calls s' =
      [Db.song_select (Some "Fuck Kitty") (Some "Frumpies") 134.47791%float;
       Db.songplay_table_insert
         [("2018-11-11 02:33:56.796000", Some "69", Some "free", None, None,
           455, Sample.city, Sample.agent)];
       Db.commit] /\
    Db.songplays (Db.committed s') =
      [("2018-11-11 02:33:56.796000", Some "69", Some "free", None, None,
        455, Sample.city, Sample.agent)].
Proof.
  apply (no_match_gives_null_ids Sample.event0 Sample.session).
  - intros history q. reflexivity.
  - reflexivity.
  - reflexivity.
Defined.

(** C10. Whatever ends the loop, the songplays table as committed holds
    the rows of all the passes completed before, and of no other: the
    loop went through its first [k] passes (each timestamp converted,
    each lookup, insert and commit accepted by the server), the rows of
    exactly these [k] events are committed, in order, after what was
    committed at loop entry; and either the frame was exhausted, or the
    pass over the event of index [k] ended in an exception at the step
    the server refused (or at a timestamp that does not convert), after
    which nothing more was sent.  An exception thus loses the row of the
    pass it ends, and no row committed before. *)
Theorem songplay_rows_committed_one_by_one
    (df : list LogData.row) (s s' : Db.Session) (r : Db.result unit) :
  Db.working s = Db.committed s ->
  songplay_loop df s = (r, s') ->
  exists k : nat,
    (k <= List.length df)%nat /\
    Forall ts_converts (firstn k df) /\
    accepted (Db.rejects s) (Db.calls s)
      (flat_map (songplay_statements (Db.committed s)) (firstn k df)) /\
    Db.songplays (Db.committed s') =
      (Db.songplays (Db.committed s)
       ++ map (songplay_row (Db.committed s)) (firstn k df))%list /\
    match r with
    | Db.Ok _ =>
        k = List.length df /\
        Db.calls s' =
          (Db.calls s
           ++ flat_map (songplay_statements (Db.committed s)) df)%list
    | Db.Raise e =>
        exists (row : LogData.row) (sent : list Db.statement),
          nth_error df k = Some row /\
          pass_fails (Db.rejects s) (Db.committed s)
            (Db.calls s
             ++ flat_map (songplay_statements (Db.committed s)) (firstn k df))
            row e sent /\
          Db.calls s' =
            (Db.calls s
             ++ flat_map (songplay_statements (Db.committed s)) (firstn k df)
             ++ sent)%list
    end.
Proof.
  intros W R.
  destruct (songplay_loop_run _ _ _ _ R) as (k & Hk & Hb & Ha & Ht & _ & Hres).
  rewrite W in *. exists k.
  repeat match goal with |- _ /\ _ => split end; trivial.
  - rewrite Ht. destruct k; [ | reflexivity ].
    cbn [firstn map]. now rewrite app_nil_r.
  - destruct r as [ [] | e ]; [ | exact Hres ].
    destruct Hres as (-> & Hc & _). now split.
Qed.

(** Three play events against a server that refuses the second insert:
    the loop ends in a database error, one pass is complete, and the
    row of the first event is committed. *)
Lemma songplay_rows_committed_one_by_one_witness :
  let df := [Sample.event0; Sample.catalog_play; Sample.event1] in
  let s := Sample.failing_session in
  let run := songplay_loop df s in
  fst run = Db.Raise Db.DatabaseError /\
  Db.songplays (Db.committed (snd run)) =
    [("2018-11-11 02:33:56.796000", Some "69", Some "free", None, None, 455,
      Sample.city, Sample.agent)] /\
  exists k : nat,
    k = 1%nat /\
    (k <= List.length df)%nat /\
    Forall ts_converts (firstn k df) /\
    accepted (Db.rejects s) (Db.calls s)
      (flat_map (songplay_statements (Db.committed s)) (firstn k df)) /\
    Db.songplays (Db.committed (snd run)) =
      (Db.songplays (Db.committed s)
       ++ map (songplay_row (Db.committed s)) (firstn k df))%list /\
    exists (row : LogData.row) (sent : list Db.statement),
      nth_error df k = Some row /\
      pass_fails (Db.rejects s) (Db.committed s)
        (Db.calls s
         ++ flat_map (songplay_statements (Db.committed s)) (firstn k df))
        row Db.DatabaseError sent /\
      Db.calls (snd run) =
        (Db.calls s
         ++ flat_map (songplay_statements (Db.committed s)) (firstn k df)
         ++ sent)%list.
Proof.
  intros df s run.
  split; [ reflexivity | ]. split; [ vm_compute; reflexivity | ].
  destruct (songplay_rows_committed_one_by_one df s (snd run) (fst run)
              eq_refl (surjective_pairing run))
    as (k & Hk & Hb & Ha & Ht & Hres).
  exists k.
  assert (K : k = 1%nat).
  { apply (f_equal (@List.length songplay_tuple)) in Ht.
    rewrite length_app, length_map, firstn_length_le in Ht by exact Hk.
    vm_compute in Ht. now symmetry. }
  repeat match goal with |- _ /\ _ => split end; trivial.
Defined.
(** ** The whole log-file part *)
Section LogFile.

Lemma bind_Ok {A B : Type} (m : Db.M A) (k : A -> Db.M B) (s s' : Db.Session)
    (b : B) :
  Db.bind m k s = (Db.Ok b, s') ->
  exists (a : A) (s1 : Db.Session),
    m s = (Db.Ok a, s1) /\ k a s1 = (Db.Ok b, s').
Proof.
  unfold Db.bind. destruct (m s) as [[a | e] s1]; [ | discriminate ].
  intros H. now exists a, s1.
Qed.

Lemma send_Ok (q : Db.statement) (effect : Db.Session -> Db.Session)
    (s s' : Db.Session) :
  Db.send q effect s = (Db.Ok tt, s') ->
  Db.rejects s (Db.calls s) q = false /\ s' = effect (Db.record_call q s).
Proof.
  unfold Db.send. destruct (Db.rejects s (Db.calls s) q); [ discriminate | ].
  now intros [= <-].
Qed.

Lemma send_accepted (q : Db.statement) (effect : Db.Session -> Db.Session)
    (s : Db.Session) :
  Db.rejects s (Db.calls s) q = false ->
  Db.send q effect s = (Db.Ok tt, effect (Db.record_call q s)).
Proof. unfold Db.send. now intros ->. Qed.

(** The pages hold the rows, in order. *)
Lemma concat_paginate_from {A : Type} (seq : list A) :
  forall (room : nat) (page : list A),
    List.concat (Db.paginate_from room page seq) = (page ++ seq)%list.
Proof.
  induction seq as [ | x rest IH ]; intros room page; cbn [Db.paginate_from].
  - destruct page; cbn [List.concat app]; now rewrite ?app_nil_r.
  - destruct room as [ | [ | room ] ]; cbn [List.concat]; rewrite IH;
      now rewrite <- ?app_assoc.
Qed.

Lemma concat_paginate {A : Type} (rows : list A) :
  List.concat (Db.paginate rows) = rows.
Proof. unfold Db.paginate. now rewrite concat_paginate_from. Qed.

(** No page is empty, and none holds more than [page_size] rows. *)
Lemma paginate_from_pages {A : Type} (seq : list A) :
  forall (room : nat) (page : list A),
    (1 <= room)%nat -> (List.length page + room = Db.page_size)%nat ->
    Forall (fun p => (1 <= List.length p <= Db.page_size)%nat)
           (Db.paginate_from room page seq).
Proof.
  induction seq as [ | x rest IH ]; intros room page R L;
    cbn [Db.paginate_from].
  - destruct page as [ | y page ]; constructor; [ | constructor ].
    cbn [List.length] in *. lia.
  - destruct room as [ | [ | room ] ]; [ lia | | ].
    + constructor.
      * rewrite length_app. cbn [List.length]. lia.
      * apply IH; [ unfold Db.page_size | cbn [List.length] ]; lia.
    + apply IH; [ lia | ]. rewrite length_app. cbn [List.length]. lia.
Qed.

Lemma paginate_pages {A : Type} (rows : list A) :
  Forall (fun p => (1 <= List.length p <= Db.page_size)%nat)
         (Db.paginate rows).
Proof.
  apply paginate_from_pages; [ unfold Db.page_size; lia | reflexivity ].
Qed.

Lemma send_pages_Ok {A : Type} (query : list A -> Db.statement)
    (apply : list A -> Db.Tables -> Db.Tables) (pages : list (list A)) :
  forall s s' : Db.Session,
    Db.send_pages query apply pages s = (Db.Ok tt, s') ->
    Db.committed s' = Db.committed s /\
    Db.rejects s' = Db.rejects s /\
    Db.calls s' = (Db.calls s ++ map query pages)%list /\
    Db.working s' =
      fold_left (fun tb page => apply page tb) pages (Db.working s) /\
    accepted (Db.rejects s) (Db.calls s) (map query pages).
Proof.
  induction pages as [ | page pages IH ]; intros s s'; cbn [Db.send_pages].
  - intros [= <-]. rewrite app_nil_r. cbn. auto.
  - intros H. apply bind_Ok in H as ([] & s1 & H1 & H).
    apply send_Ok in H1 as [R ->]. apply IH in H as (C & J & L & W & Acc).
    revert C J L W Acc. session_simpl. intros C J L W Acc.
    cbn [map fold_left accepted]. now repeat split.
Qed.

Lemma send_pages_completes {A : Type} (query : list A -> Db.statement)
    (apply : list A -> Db.Tables -> Db.Tables) (pages : list (list A)) :
  forall s : Db.Session,
    accepts_all s ->
    exists s', Db.send_pages query apply pages s = (Db.Ok tt, s').
Proof.
  induction pages as [ | page pages IH ]; intros s Acc; cbn [Db.send_pages].
  - now exists s.
  - unfold Db.bind. rewrite send_accepted by apply Acc. apply IH.
    intros history q. apply Acc.
Qed.

(** The time loader, page after page, amounts to one pass over the rows
    and touches the time table only. *)
Lemma fold_pages_time (pages : list (list time_tuple)) :
  forall tb : Db.Tables,
    let tb' :=
      fold_left
        (fun tb page =>
           Db.with_time (fun table => fold_left Db.insert_time page table) tb)
        pages tb in
    Db.time tb' = fold_left Db.insert_time (List.concat pages) (Db.time tb) /\
    Db.songs tb' = Db.songs tb /\ Db.artists tb' = Db.artists tb /\
    Db.users tb' = Db.users tb /\ Db.songplays tb' = Db.songplays tb.
Proof.
  induction pages as [ | page pages IH ]; intros tb; cbn [fold_left List.concat].
  - now repeat split.
  - destruct (IH (Db.with_time
                    (fun table => fold_left Db.insert_time page table) tb))
      as (T & S & A & U & P).
    cbv zeta. rewrite T, S, A, U, P, fold_left_app. now repeat split.
Qed.

Lemma fold_pages_users (pages : list (list user_tuple)) :
  forall tb : Db.Tables,
    let tb' :=
      fold_left
        (fun tb page =>
           Db.with_users (fun table => fold_left Db.upsert_user page table) tb)
        pages tb in
    Db.users tb' = fold_left Db.upsert_user (List.concat pages) (Db.users tb) /\
    Db.songs tb' = Db.songs tb /\ Db.artists tb' = Db.artists tb /\
    Db.time tb' = Db.time tb /\ Db.songplays tb' = Db.songplays tb.
Proof.
  induction pages as [ | page pages IH ]; intros tb; cbn [fold_left List.concat].
  - now repeat split.
  - destruct (IH (Db.with_users
                    (fun table => fold_left Db.upsert_user page table) tb))
      as (U & S & A & T & P).
    cbv zeta. rewrite U, S, A, T, P, fold_left_app. now repeat split.
Qed.

Lemma conn_commit_Ok (s s' : Db.Session) :
  Db.conn_commit s = (Db.Ok tt, s') ->
  Db.rejects s (Db.calls s) Db.commit = false /\
  s' = Db.set_committed (Db.working s) (Db.record_call Db.commit s).
Proof.
  unfold Db.conn_commit. intros H. apply send_Ok in H as [R ->]. now split.
Qed.

(** A complete run of the loop leaves the dimension tables alone and
    ends on a committed state, unless the data frame was empty. *)
Lemma songplay_loop_Ok (df : list LogData.row) :
  forall s s' : Db.Session,
    songplay_loop df s = (Db.Ok tt, s') ->
    same_dimensions (Db.working s) (Db.working s') /\
    (Db.committed s' = Db.working s' \/ s' = s).
Proof.
  induction df as [ | row rest IH ]; intros s s'.
  - intros [= ->]. split; [ now repeat split | now right ].
  - rewrite songplay_loop_cons, songplay_step_run. cbv zeta.
    repeat match goal with
           | |- context [if ?c then _ else _] => destruct c; try discriminate
           end.
    intros H. destruct (IH _ _ H) as ((S & A & T & U) & C).
    split.
    + now repeat split.
    + destruct C as [C | ->]; now left.
Qed.

(** The time loader stores every key of its batch. *)
Lemma insert_time_keys (rows table : list time_tuple) (key : string) :
  In key (map Db.time_key table) \/ In key (map Db.time_key rows) ->
  In key (map Db.time_key (fold_left Db.insert_time rows table)).
Proof.
  revert table. induction rows as [ | r rows IH ]; intros table.
  - intros [I | []]. exact I.
  - cbn [fold_left map]. intros H. apply IH. unfold Db.insert_time.
    destruct (existsb _ table) eqn:E.
    + destruct H as [I | [<- | I]]; auto. left.
      apply existsb_exists in E as (r' & I & E).
      apply String.eqb_eq in E. rewrite <- E. now apply in_map.
    + rewrite map_app. cbn [map].
      destruct H as [I | [<- | I]]; auto; left; apply in_or_app; auto.
      right. now left.
Qed.

(** *** The frame the conversion leaves *)

Lemma df_after_t_in_bounds (df : list LogData.row) :
  Forall (fun e => Pandas.masked (LogData.ts e) = false) df ->
  df_after_t df = df.
Proof.
  unfold df_after_t. induction 1 as [ | e df M _ IH ]; [ reflexivity | ].
  cbn [map]. now rewrite M, IH.
Qed.

Lemma df_after_t_ts (df : list LogData.row) :
  map LogData.ts (df_after_t df) = Pandas.zero_masked (map LogData.ts df).
Proof.
  unfold df_after_t, Pandas.zero_masked. rewrite !map_map.
  apply map_ext. intros e. now destruct (Pandas.masked (LogData.ts e)).
Qed.

(** What the conversion lets through, the loop converts as well: the
    entries set to zero are in bounds. *)
Lemma df_after_t_converts (df : list LogData.row) :
  Forall ts_converts df -> Forall ts_converts (df_after_t df).
Proof.
  unfold df_after_t. intros F. apply Forall_map. revert F.
  apply Forall_impl. intros e C.
  destruct (Pandas.masked (LogData.ts e)) eqn:M; [ reflexivity | exact C ].
Qed.

Lemma user_tuples_df_after_t (df : list LogData.row) :
  user_tuples (df_after_t df) = user_tuples df.
Proof.
  unfold user_tuples, user_df, df_after_t. rewrite map_map.
  apply map_ext. intros e. now destruct (Pandas.masked (LogData.ts e)).
Qed.

Lemma time_data_converts (df : list LogData.row) :
  Forall ts_converts df ->
  time_data df =
    Some (map (fun e => time_entry (datetime_of_ms (LogData.ts e))) df).
Proof.
  intros F. unfold time_data, t.
  rewrite PandasFacts.to_datetime_series_Some by (apply Forall_map; exact F).
  cbn [option_map]. now rewrite !map_map.
Qed.

Lemma time_data_inv (df : list LogData.row) (rows : list time_tuple) :
  time_data df = Some rows ->
  Forall ts_converts df /\
  rows = map (fun e => time_entry (datetime_of_ms (LogData.ts e))) df.
Proof.
  unfold time_data, t.
  destruct (Pandas.to_datetime_series (map LogData.ts df)) as [xs | ] eqn:E;
    [ | discriminate ].
  apply PandasFacts.to_datetime_series_inv in E as [F ->].
  intros [= <-]. split; [ | now rewrite !map_map ].
  apply Forall_map in F. exact F.
Qed.

(** A log without play events: the line [time_data[0]] raises, and
    nothing at all is sent. *)
Lemma process_log_file_no_plays (log : list LogData.row) (s : Db.Session) :
  filter_NextSong log = [] ->
  process_log_file log s = (Db.Raise Db.IndexError, s).
Proof. intros E. unfold process_log_file. now rewrite E. Qed.

(** A complete run of the log-file part: what it has sent and what it
    leaves in the tables. *)
Lemma process_log_file_Ok (log : list LogData.row) (s s' : Db.Session) :
  process_log_file log s = (Db.Ok tt, s') ->
  let df := filter_NextSong log in
  let rows := map (fun e => time_entry (datetime_of_ms (LogData.ts e))) df in
  df <> [] /\
  Forall ts_converts df /\
  time_tuples df = Some rows /\
  Db.committed s' = Db.working s' /\
  Db.rejects s' = Db.rejects s /\
  Db.songs (Db.working s') = Db.songs (Db.working s) /\
  Db.artists (Db.working s') = Db.artists (Db.working s) /\
  Db.time (Db.working s') =
    fold_left Db.insert_time rows (Db.time (Db.working s)) /\
  Db.users (Db.working s') =
    fold_left Db.upsert_user (user_tuples df) (Db.users (Db.working s)) /\
  Db.songplays (Db.working s') =
    (Db.songplays (Db.working s)
     ++ map (songplay_row (Db.working s)) (df_after_t df))%list /\
  Db.calls s' =
    (Db.calls s
     ++ map Db.time_table_insert (Db.paginate rows)
     ++ [Db.commit]
     ++ map Db.user_table_insert (Db.paginate (user_tuples df))
     ++ [Db.commit]
     ++ flat_map (songplay_statements (Db.working s)) (df_after_t df))%list.
Proof.
  intros H df rows. unfold process_log_file in H. fold df in H.
  apply bind_Ok in H as (rows' & s1 & H1 & H). cbv zeta in H.
  apply bind_Ok in H as (first & s2 & H2 & H).
  apply bind_Ok in H as ([] & s3 & H3 & H).
  apply bind_Ok in H as ([] & s4 & H4 & H).
  apply bind_Ok in H as ([] & s5 & H5 & H).
  apply bind_Ok in H as ([] & s6 & H6 & H).
  destruct (time_data df) as [rows'' | ] eqn:T; [ | discriminate ].
  cbn [Db.of_option Db.ret] in H1. injection H1 as -> <-.
  apply time_data_inv in T as [F T]. fold rows in T. subst rows'.
  assert (N : df <> []).
  { intros E. subst rows. rewrite E in H2. discriminate. }
  assert (s2 = s) as ->.
  { destruct rows; [ discriminate | ]. now injection H2 as _ <-. }
  rewrite user_tuples_df_after_t in H5.
  apply send_pages_Ok in H3 as (C3 & J3 & L3 & W3 & _).
  apply conn_commit_Ok in H4 as [_ ->].
  apply send_pages_Ok in H5 as (C5 & J5 & L5 & W5 & _).
  apply conn_commit_Ok in H6 as [_ ->].
  destruct (fold_pages_time (Db.paginate rows) (Db.working s))
    as (T1 & S1 & A1 & U1 & P1). cbv zeta in T1, S1, A1, U1, P1.
  rewrite <- W3, concat_paginate in T1. rewrite <- W3 in S1, A1, U1, P1.
  revert C5 J5 L5 W5. session_simpl. intros C5 J5 L5 W5.
  destruct (fold_pages_users (Db.paginate (user_tuples df)) (Db.working s3))
    as (U2 & S2 & A2 & T2 & P2). cbv zeta in U2, S2, A2, T2, P2.
  rewrite <- W5, concat_paginate in U2. rewrite <- W5 in S2, A2, T2, P2.
  set (s0 := Db.set_committed (Db.working s5) (Db.record_call Db.commit s5))
    in *.
  assert (W0 : Db.working s0 = Db.working s5) by reflexivity.
  assert (C0 : Db.committed s0 = Db.working s5) by reflexivity.
  assert (J0 : Db.rejects s0 = Db.rejects s5) by reflexivity.
  assert (L0 : Db.calls s0 = (Db.calls s5 ++ [Db.commit])%list) by reflexivity.
  assert (Sg : Db.songs (Db.working s0) = Db.songs (Db.working s))
    by congruence.
  assert (Ar : Db.artists (Db.working s0) = Db.artists (Db.working s))
    by congruence.
  destruct (songplay_loop_run _ _ _ _ H) as (k & _ & _ & _ & _ & J & Hok).
  destruct Hok as (_ & Lc & Wp).
  destruct (songplay_loop_Ok _ _ _ H) as ((S' & A' & T' & U') & Cm).
  rewrite (flat_map_ext _ _
             (fun x => songplay_statements_catalog _ _ x Sg Ar)) in Lc.
  rewrite (map_ext _ _ (fun x => songplay_row_catalog _ _ x Sg Ar)) in Wp.
  repeat match goal with |- _ /\ _ => split end; trivial.
  - unfold time_tuples. fold df. now apply time_data_converts.
  - destruct Cm as [Cm | ->]; [ exact Cm | now rewrite C0, W0 ].
  - congruence.
  - congruence.
  - congruence.
  - rewrite T', W0, T2. exact T1.
  - rewrite U', W0, U2. now rewrite U1.
  - rewrite Wp, W0, P2. now rewrite P1.
  - rewrite Lc, L0, L5, L3. now rewrite <- !app_assoc.
Qed.

Lemma bind_run {A B : Type} (m : Db.M A) (k : A -> Db.M B)
    (s s1 : Db.Session) (a : A) :
  m s = (Db.Ok a, s1) -> Db.bind m k s = k a s1.
Proof. unfold Db.bind. now intros ->. Qed.

Lemma accepts_all_rejects (s s' : Db.Session) :
  Db.rejects s' = Db.rejects s -> accepts_all s -> accepts_all s'.
Proof. unfold accepts_all. now intros ->. Qed.

Lemma conn_commit_completes (s : Db.Session) :
  accepts_all s ->
  Db.conn_commit s =
    (Db.Ok tt, Db.set_committed (Db.working s) (Db.record_call Db.commit s)).
Proof. intros A. unfold Db.conn_commit. now rewrite send_accepted. Qed.

(** With a server that refuses nothing, timestamps that convert and at
    least one play event, the log-file part runs to its end. *)
Lemma process_log_file_completes (log : list LogData.row) (s : Db.Session) :
  accepts_all s ->
  Forall ts_converts (filter_NextSong log) ->
  filter_NextSong log <> [] ->
  exists s', process_log_file log s = (Db.Ok tt, s').
Proof.
  intros A F N. unfold process_log_file.
  rewrite (time_data_converts _ F). cbn [Db.of_option].
  rewrite (bind_run (Db.ret _) _ s s _ eq_refl). cbv zeta.
  destruct (filter_NextSong log) as [ | e df ]; [ now destruct N | ].
  cbn [map Db.first_entry]. rewrite (bind_run (Db.ret _) _ s s _ eq_refl).
  unfold Db.execute_values_time, Db.execute_values_user, Db.execute_values.
  destruct (send_pages_completes Db.time_table_insert
              (fun rows =>
                 Db.with_time (fun table => fold_left Db.insert_time rows table))
              (Db.paginate
                 (time_entry (datetime_of_ms (LogData.ts e))
                  :: map (fun e => time_entry (datetime_of_ms (LogData.ts e)))
                         df))
              s A) as (s3 & H3).
  rewrite (bind_run _ _ _ _ _ H3).
  apply send_pages_Ok in H3 as (_ & J3 & _).
  pose proof (accepts_all_rejects _ _ J3 A) as A3.
  rewrite (bind_run _ _ _ _ _ (conn_commit_completes s3 A3)).
  set (s4 := Db.set_committed (Db.working s3) (Db.record_call Db.commit s3)).
  assert (A4 : accepts_all s4) by exact A3.
  destruct (send_pages_completes Db.user_table_insert
              (fun rows =>
                 Db.with_users
                   (fun table => fold_left Db.upsert_user rows table))
              (Db.paginate (user_tuples (df_after_t (e :: df))))
              s4 A4) as (s5 & H5).
  rewrite (bind_run _ _ _ _ _ H5).
  apply send_pages_Ok in H5 as (_ & J5 & _).
  pose proof (accepts_all_rejects _ _ J5 A4) as A5.
  rewrite (bind_run _ _ _ _ _ (conn_commit_completes s5 A5)).
  apply songplay_loop_completes; [ exact A5 | ].
  now apply df_after_t_converts.
Qed.

End LogFile.

(** C3. An event whose page is not "NextSong" is dropped by the filter
    before the time entries are derived and before the songplay loop runs:
    the log with the event and the log without it give the same time
    entries and the same run against the database, and the event alone
    gives no time entry, no pass of the loop and no insert statement. *)
Theorem non_play_events_produce_no_rows
    (log1 log2 : list LogData.row) (e : LogData.row) (s : Db.Session) :
  LogData.page e <> Some "NextSong" ->
  time_tuples (filter_NextSong (log1 ++ e :: log2)) =
    time_tuples (filter_NextSong (log1 ++ log2)) /\
  songplay_loop (filter_NextSong (log1 ++ e :: log2)) s =
    songplay_loop (filter_NextSong (log1 ++ log2)) s /\
  process_log_file (log1 ++ e :: log2) s = process_log_file (log1 ++ log2) s /\
  time_tuples (filter_NextSong [e]) = Some [] /\
  songplay_loop (filter_NextSong [e]) s = (Db.Ok tt, s) /\
  Db.working (snd (process_log_file [e] s)) = Db.working s /\
  (forall q, In q (Db.calls (snd (process_log_file [e] s))) ->
             In q (Db.calls s) \/ q = Db.commit).
Proof.
  intros P.
  pose proof (filter_NextSong_drop log1 log2 e P) as D.
  assert (N : filter_NextSong [e] = [])
    by (apply filter_NextSong_none; now constructor).
  pose proof (process_log_file_no_plays [e] s N) as R.
  repeat split.
  - now rewrite D.
  - now rewrite D.
  - unfold process_log_file. now rewrite D.
  - now rewrite N.
  - now rewrite N.
  - now rewrite R.
  - rewrite R. cbn [snd]. now left.
Qed.

(** A page view between the two play events of the notebook. *)
Lemma non_play_events_produce_no_rows_witness :
  time_tuples (filter_NextSong ([Sample.event0] ++ Sample.home_view
                                :: [Sample.event1])) =
    time_tuples (filter_NextSong ([Sample.event0] ++ [Sample.event1])) /\
  songplay_loop (filter_NextSong ([Sample.event0] ++ Sample.home_view
                                  :: [Sample.event1])) Sample.session =
    songplay_loop (filter_NextSong ([Sample.event0] ++ [Sample.event1]))
                  Sample.session /\
  process_log_file ([Sample.event0] ++ Sample.home_view :: [Sample.event1])
                   Sample.session =
    process_log_file ([Sample.event0] ++ [Sample.event1]) Sample.session /\
  time_tuples (filter_NextSong [Sample.home_view]) = Some [] /\
  songplay_loop (filter_NextSong [Sample.home_view]) Sample.session =
    (Db.Ok tt, Sample.session) /\
  Db.working (snd (process_log_file [Sample.home_view] Sample.session)) =
    Db.working Sample.session /\
  (forall q,
     In q (Db.calls (snd (process_log_file [Sample.home_view]
                                           Sample.session))) ->
     In q (Db.calls Sample.session) \/ q = Db.commit).
Proof.
  apply (non_play_events_produce_no_rows [Sample.event0] [Sample.event1]
           Sample.home_view Sample.session).
  discriminate.
Defined.




(** ** Further properties of the log-file part *)
Section StartTime.






End StartTime.



Section Exceptions.

(** The time entries are not built exactly when a play event has a
    timestamp that does not convert. *)
Lemma time_data_None (log : list LogData.row) :
  time_data (filter_NextSong log) = None <-> Exists out_of_bounds_play log.
Proof.
  unfold time_data, t.
  destruct (Pandas.to_datetime_series _) as [xs | ] eqn:E; cbn [option_map].
  - split; [ discriminate | ]. intros X. exfalso.
    assert (N : Pandas.to_datetime_series
                  (map LogData.ts (filter_NextSong log)) = None);
      [ | congruence ].
    apply PandasFacts.to_datetime_series_None.
    apply Exists_exists in X as (e & I & P & B).
    exists (LogData.ts e). split; [ | exact B ].
    apply in_map. now apply filter_In.
  - split; [ intros _ | reflexivity ].
    apply PandasFacts.to_datetime_series_None in E as (ts & I & B).
    apply in_map_iff in I as (e & <- & I). apply filter_In in I as [I P].
    apply Exists_exists. exists e. now repeat split.
Qed.

Lemma send_Raise (q : Db.statement) (effect : Db.Session -> Db.Session)
    (s s' : Db.Session) (e : Db.exn) :
  Db.send q effect s = (Db.Raise e, s') -> e = Db.DatabaseError.
Proof.
  unfold Db.send. destruct (Db.rejects s (Db.calls s) q); now intros [= ].
Qed.

Lemma send_pages_Raise {A : Type} (query : list A -> Db.statement)
    (apply : list A -> Db.Tables -> Db.Tables) (pages : list (list A)) :
  forall (s s' : Db.Session) (e : Db.exn),
    Db.send_pages query apply pages s = (Db.Raise e, s') ->
    e = Db.DatabaseError.
Proof.
  induction pages as [ | page pages IH ]; intros s s' e; cbn [Db.send_pages];
    [ discriminate | ].
  unfold Db.bind. destruct (Db.send _ _ s) as [[[] | e1] s1] eqn:E1.
  - apply IH.
  - apply send_Raise in E1. now intros [= <- _].
Qed.

(** On timestamps that convert the songplay loop raises database errors
    only. *)
Lemma songplay_loop_Raise (df : list LogData.row) (s s' : Db.Session)
    (e : Db.exn) :
  Forall ts_converts df ->
  songplay_loop df s = (Db.Raise e, s') -> e = Db.DatabaseError.
Proof.
  intros F R.
  destruct (songplay_loop_run _ _ _ _ R) as (k & _ & _ & _ & _ & _ & Hres).
  destruct Hres as (row & sent & Hn & Hf & _).
  apply nth_error_In in Hn. rewrite Forall_forall in F.
  specialize (F row Hn). unfold ts_converts in F.
  destruct Hf as [(-> & _) | [(_ & _ & _ & C) | [(-> & _) | (-> & _)]]];
    trivial.
  congruence.
Qed.

End Exceptions.

(** X2. The timestamps of all play events are converted before anything
    is sent to the database: when one of them is neither the mark of the
    missing time nor within the bounds of pandas, the log-file part
    raises OutOfBoundsDatetime and the session is as it was; this is the
    only way for it to raise that exception, the loop never does; the
    timestamp of an event of another page is never converted. *)
Theorem out_of_bounds_timestamp_stops_before_any_statement
    (log : list LogData.row) (s : Db.Session) :
  (Exists out_of_bounds_play log ->
   process_log_file log s = (Db.Raise Db.OutOfBoundsDatetime, s)) /\
  (forall s' : Db.Session,
     process_log_file log s = (Db.Raise Db.OutOfBoundsDatetime, s') ->
     s' = s /\ Exists out_of_bounds_play log).
Proof.
  split.
  - intros X. apply time_data_None in X.
    unfold process_log_file, Db.bind. now rewrite X.
  - intros s'. unfold process_log_file.
    destruct (time_data (filter_NextSong log)) as [rows | ] eqn:T.
    + apply time_data_inv in T as [F _].
      cbn [Db.of_option]. rewrite (bind_run (Db.ret _) _ s s _ eq_refl).
      cbv zeta. unfold Db.bind.
      destruct (Db.first_entry rows s) as [[first | e0] s0] eqn:E0.
      2: { destruct rows; [ | discriminate ].
           cbn [Db.first_entry Db.raise] in E0. injection E0 as <- <-.
           discriminate. }
      destruct (Db.execute_values_time rows s0) as [[[] | e1] s1] eqn:E1.
      2: { apply send_pages_Raise in E1. subst. discriminate. }
      destruct (Db.conn_commit s1) as [[[] | e2] s2] eqn:E2.
      2: { apply send_Raise in E2. subst. discriminate. }
      destruct (Db.execute_values_user _ s2) as [[[] | e3] s3] eqn:E3.
      2: { apply send_pages_Raise in E3. subst. discriminate. }
      destruct (Db.conn_commit s3) as [[[] | e4] s4] eqn:E4.
      2: { apply send_Raise in E4. subst. discriminate. }
      intros R. apply songplay_loop_Raise in R; [ discriminate | ].
      now apply df_after_t_converts.
    + unfold Db.bind. cbn [Db.of_option Db.raise]. intros [= <-].
      split; [ reflexivity | now apply time_data_None ].
Qed.

(** X3. A log without play events ends the log-file part in an
    IndexError, at the line that displays the first time entry, whatever
    the server would do: no statement has been sent by then and the
    session is as it was.  It is the only way for the log-file part to
    raise that exception. *)
Theorem log_without_play_events_raises_index_error
    (log : list LogData.row) (s : Db.Session) :
  (filter_NextSong log = [] <->
   process_log_file log s = (Db.Raise Db.IndexError, s)) /\
  (forall s' : Db.Session,
     process_log_file log s = (Db.Raise Db.IndexError, s') ->
     s' = s /\ Forall (fun e => is_NextSong e = false) log).
Proof.
  assert (K : forall s', process_log_file log s = (Db.Raise Db.IndexError, s') ->
                         s' = s /\ filter_NextSong log = []).
  { intros s'. unfold process_log_file.
    destruct (time_data (filter_NextSong log)) as [rows | ] eqn:T.
    - apply time_data_inv in T as [F T].
      cbn [Db.of_option]. rewrite (bind_run (Db.ret _) _ s s _ eq_refl).
      cbv zeta. unfold Db.bind.
      destruct (Db.first_entry rows s) as [[first | e0] s0] eqn:E0.
      2: { destruct rows; [ | discriminate ].
           cbn [Db.first_entry Db.raise] in E0. injection E0 as <- <-.
           intros [= <-]. split; [ reflexivity | ].
           destruct (filter_NextSong log); [ reflexivity | discriminate ]. }
      destruct (Db.execute_values_time rows s0) as [[[] | e1] s1] eqn:E1.
      2: { apply send_pages_Raise in E1. subst. discriminate. }
      destruct (Db.conn_commit s1) as [[[] | e2] s2] eqn:E2.
      2: { apply send_Raise in E2. subst. discriminate. }
      destruct (Db.execute_values_user _ s2) as [[[] | e3] s3] eqn:E3.
      2: { apply send_pages_Raise in E3. subst. discriminate. }
      destruct (Db.conn_commit s3) as [[[] | e4] s4] eqn:E4.
      2: { apply send_Raise in E4. subst. discriminate. }
      intros R. apply songplay_loop_Raise in R; [ discriminate | ].
      now apply df_after_t_converts.
    - unfold Db.bind. cbn [Db.of_option Db.raise]. discriminate. }
  split; [ split | ].
  - apply process_log_file_no_plays.
  - intros R. now apply K in R.
  - intros s' R. apply K in R as [-> E]. split; [ reflexivity | ].
    apply Forall_forall. intros e I.
    destruct (is_NextSong e) eqn:P; [ | reflexivity ].
    assert (In e (filter_NextSong log)) by (apply filter_In; now split).
    rewrite E in *. contradiction.
Qed.

(** X4. With a server that refuses nothing, timestamps that convert and
    at least one play event, the log-file part ends normally and has
    sent, in this order: the inserts of the time entries, one for every
    page of at most 100 entries, a commit, the inserts of the user rows,
    page by page, a commit, and then lookup, insert and commit for each
    play event.  The pages of a batch hold its rows in order, none is
    empty. *)
Theorem log_file_part_statements_in_order
    (log : list LogData.row) (s : Db.Session) :
  accepts_all s ->
  Forall ts_converts (filter_NextSong log) ->
  filter_NextSong log <> [] ->
  let df := filter_NextSong log in
  let rows := map (fun e => time_entry (datetime_of_ms (LogData.ts e))) df in
  exists s' : Db.Session,
    process_log_file log s = (Db.Ok tt, s') /\
    Db.calls s' =
      (Db.calls s
       ++ map Db.time_table_insert (Db.paginate rows)
       ++ [Db.commit]
       ++ map Db.user_table_insert (Db.paginate (user_tuples df))
       ++ [Db.commit]
       ++ flat_map (songplay_statements (Db.working s)) (df_after_t df))%list /\
    List.concat (Db.paginate rows) = rows /\
    List.concat (Db.paginate (user_tuples df)) = user_tuples df /\
    Forall (fun p => (1 <= List.length p <= 100)%nat) (Db.paginate rows) /\
    Forall (fun p => (1 <= List.length p <= 100)%nat)
           (Db.paginate (user_tuples df)).
Proof.
  intros A F N df rows.
  destruct (process_log_file_completes log s A F N) as (s' & R).
  exists s'. split; [ exact R | ].
  pose proof (process_log_file_Ok log s s' R) as H. cbv zeta in H.
  destruct H as (_ & _ & _ & _ & _ & _ & _ & _ & _ & _ & L).
  split; [ exact L | ].
  split; [ apply concat_paginate | ]. split; [ apply concat_paginate | ].
  split; apply paginate_pages.
Qed.

(** The three sample records against the sample catalog. *)
Lemma log_file_part_statements_in_order_witness :
  exists s' : Db.Session,
    process_log_file [Sample.event0; Sample.home_view; Sample.catalog_play]
                     Sample.session = (Db.Ok tt, s') /\
    Db.calls s' =
      [Db.time_table_insert
         [("2018-11-11 02:33:56.796000", Pandas.Num 2, Pandas.Num 11,
           Pandas.Num 45, Pandas.Num 11, Pandas.Num 2018, Pandas.Num 6);
          ("2018-11-11 02:38:20.796000", Pandas.Num 2, Pandas.Num 11,
           Pandas.Num 45, Pandas.Num 11, Pandas.Num 2018, Pandas.Num 6)];
       Db.commit;
       Db.user_table_insert
         [(Some "69", Some "Anabelle", Some "Simpson", Some "F", Some "free");
          (Some "69", Some "Anabelle", Some "Simpson", Some "F", Some "free")];
       Db.commit;
       Db.song_select (Some "Fuck Kitty") (Some "Frumpies") 134.47791%float;
       Db.songplay_table_insert
         [("2018-11-11 02:33:56.796000", Some "69", Some "free", None, None,
           455, Sample.city, Sample.agent)];
       Db.commit;
       Db.song_select (Some "Something Girls") (Some "Adam Ant")
                      233.40363%float;
       Db.songplay_table_insert
         [("2018-11-11 02:38:20.796000", Some "69", Some "free",
           Some "SONHOTT12A8C13493C", Some "AR7G5I41187FB4CE6C",
           455, Sample.city, Sample.agent)];
       Db.commit].
Proof.
  destruct (log_file_part_statements_in_order
              [Sample.event0; Sample.home_view; Sample.catalog_play]
              Sample.session) as (s' & R & L & _).
  - intros history q. reflexivity.
  - repeat constructor.
  - discriminate.
  - exists s'. split; [ exact R | exact L ].
Defined.

(** X5. When the log-file part ends normally nothing is left
    uncommitted, so closing the connection loses nothing; the songs and
    artists tables are those it started with, the time table holds a key
    for every time entry, and the users table is the one at entry with
    the user rows of the play events upserted in order. *)
Theorem log_file_part_leaves_nothing_uncommitted
    (log : list LogData.row) (s s' : Db.Session) :
  process_log_file log s = (Db.Ok tt, s') ->
  Db.committed s' = Db.working s' /\
  Db.songs (Db.committed s') = Db.songs (Db.working s) /\
  Db.artists (Db.committed s') = Db.artists (Db.working s) /\
  Db.users (Db.committed s') =
    fold_left Db.upsert_user (user_tuples (filter_NextSong log))
              (Db.users (Db.working s)) /\
  (forall rows : list time_tuple,
     time_tuples (filter_NextSong log) = Some rows ->
     forall r, In r rows ->
               In (Db.time_key r)
                  (map Db.time_key (Db.time (Db.committed s')))) /\
  List.length (Db.songplays (Db.committed s')) =
    (List.length (Db.songplays (Db.working s))
     + List.length (filter_NextSong log))%nat.
Proof.
  intros R. pose proof (process_log_file_Ok log s s' R) as H. cbv zeta in H.
  destruct H as (_ & _ & T & C & _ & Sg & Ar & Tm & Us & Sp & _).
  rewrite C. repeat match goal with |- _ /\ _ => split end; trivial.
  - intros rows T' r I. rewrite T in T'. injection T' as <-.
    rewrite Tm. apply insert_time_keys. right. now apply in_map.
  - rewrite Sp, length_app, length_map. unfold df_after_t.
    now rewrite length_map.
Qed.

(** The three sample records against the sample catalog. *)
Lemma log_file_part_leaves_nothing_uncommitted_witness :
  let log := [Sample.event0; Sample.home_view; Sample.catalog_play] in
  let run := process_log_file log Sample.session in
  fst run = Db.Ok tt /\
  Db.committed (snd run) = Db.working (snd run) /\
  Db.songs (Db.committed (snd run)) = Db.songs (Db.working Sample.session) /\
  Db.artists (Db.committed (snd run)) =
    Db.artists (Db.working Sample.session) /\
  Db.users (Db.committed (snd run)) =
    fold_left Db.upsert_user (user_tuples (filter_NextSong log))
              (Db.users (Db.working Sample.session)) /\
  (forall rows : list time_tuple,
     time_tuples (filter_NextSong log) = Some rows ->
     forall r, In r rows ->
               In (Db.time_key r)
                  (map Db.time_key (Db.time (Db.committed (snd run))))) /\
  List.length (Db.songplays (Db.committed (snd run))) =
    (List.length (Db.songplays (Db.working Sample.session))
     + List.length (filter_NextSong log))%nat.
Proof.
  intros log run. split; [ vm_compute; reflexivity | ].
  apply (log_file_part_leaves_nothing_uncommitted log Sample.session).
  vm_compute. reflexivity.
Defined.

(** ** No statement after a refusal *)
Section FailFast.

Lemma fail_fast_ret {A : Type} (a : A) : fail_fast (Db.ret a).
Proof.
  intros s s' r [= <- <-]. split; [ reflexivity | ].
  exists []. now rewrite app_nil_r.
Qed.

Lemma fail_fast_raise {A : Type} (e : Db.exn) :
  e <> Db.DatabaseError -> fail_fast (@Db.raise A e).
Proof.
  intros N s s' r [= <- <-]. split; [ reflexivity | ].
  exists []. rewrite app_nil_r. split; [ reflexivity | ].
  destruct e; cbn [accepted]; trivial. now destruct N.
Qed.

Lemma fail_fast_of_option {A : Type} (o : option A) :
  fail_fast (Db.of_option Db.OutOfBoundsDatetime o).
Proof.
  destruct o as [a | ]; [ apply fail_fast_ret | ].
  apply fail_fast_raise. discriminate.
Qed.

Lemma fail_fast_first_entry {A : Type} (l : list A) :
  fail_fast (Db.first_entry l).
Proof.
  destruct l as [ | a l ]; [ | apply fail_fast_ret ].
  apply fail_fast_raise. discriminate.
Qed.

Lemma fail_fast_send (q : Db.statement) (effect : Db.Session -> Db.Session) :
  (forall s, Db.calls (effect s) = Db.calls s /\
             Db.rejects (effect s) = Db.rejects s) ->
  fail_fast (Db.send q effect).
Proof.
  intros E s s' r. unfold Db.send.
  destruct (Db.rejects s (Db.calls s) q) eqn:R; intros [= <- <-].
  - split; [ reflexivity | ]. exists [q]. split; [ reflexivity | ].
    exists [], q. rewrite app_nil_r. now repeat split.
  - destruct (E (Db.record_call q s)) as [Ec Er].
    split; [ now rewrite Er | ]. exists [q]. rewrite Ec.
    now repeat split.
Qed.

Lemma fail_fast_fetchone : fail_fast Db.cur_fetchone.
Proof.
  intros s s' r. unfold Db.cur_fetchone.
  destruct (Db.fetched s); intros [= <- <-]; (split; [ reflexivity | ]);
    exists []; cbn [Db.calls Db.set_fetched]; now rewrite app_nil_r.
Qed.

Lemma fail_fast_commit : fail_fast Db.conn_commit.
Proof. apply fail_fast_send. now intros s. Qed.

(** Running one piece of code after another keeps the property. *)
Lemma fail_fast_bind {A B : Type} (m : Db.M A) (k : A -> Db.M B) :
  fail_fast m -> (forall a, fail_fast (k a)) -> fail_fast (Db.bind m k).
Proof.
  intros Hm Hk s s' r. unfold Db.bind.
  destruct (m s) as [[a | e] s1] eqn:E1.
  - intros E2. destruct (Hm _ _ _ E1) as (R1 & new1 & C1 & A1).
    destruct (Hk a _ _ _ E2) as (R2 & new2 & C2 & A2).
    rewrite R1, C1 in *. split; [ exact R2 | ].
    exists (new1 ++ new2)%list. split; [ now rewrite C2, app_assoc | ].
    destruct r as [b | [ | | ]].
    + now apply accepted_app.
    + now apply accepted_app.
    + now apply accepted_app.
    + destruct A2 as (sent & q & -> & A2 & Q).
      exists (new1 ++ sent)%list, q. rewrite !app_assoc.
      repeat split; trivial. apply accepted_app. now rewrite <- app_assoc in *.
  - intros [= <- <-]. destruct (Hm _ _ _ E1) as (R1 & new1 & C1 & A1).
    split; [ exact R1 | ]. now exists new1.
Qed.

Lemma fail_fast_send_pages {A : Type} (query : list A -> Db.statement)
    (apply : list A -> Db.Tables -> Db.Tables) (pages : list (list A)) :
  fail_fast (Db.send_pages query apply pages).
Proof.
  induction pages as [ | page pages IH ]; cbn [Db.send_pages].
  - apply fail_fast_ret.
  - apply fail_fast_bind; [ | now intros _ ].
    apply fail_fast_send. now intros s.
Qed.

Lemma fail_fast_execute_values {A : Type} (query : list A -> Db.statement)
    (apply : list A -> Db.Tables -> Db.Tables) (rows : list A) :
  fail_fast (Db.execute_values query apply rows).
Proof. apply fail_fast_send_pages. Qed.

Lemma fail_fast_songplay_step (row : LogData.row) :
  fail_fast (songplay_step row).
Proof.
  unfold songplay_step.
  apply fail_fast_bind; [ apply fail_fast_send; now intros s | intros _ ].
  apply fail_fast_bind; [ apply fail_fast_fetchone | intros results ].
  apply fail_fast_bind; [ apply fail_fast_of_option | intros data ].
  apply fail_fast_bind; [ apply fail_fast_execute_values | intros _ ].
  apply fail_fast_commit.
Qed.

Lemma fail_fast_songplay_loop (df : list LogData.row) :
  fail_fast (songplay_loop df).
Proof.
  induction df as [ | row rest IH ]; cbn [songplay_loop].
  - apply fail_fast_ret.
  - apply fail_fast_bind; [ apply fail_fast_songplay_step | now intros _ ].
Qed.

End FailFast.

(** X6. The log-file part stops at the first statement the server
    refuses: every statement it sent before was accepted, the refused one
    is the last it sent, and it then ends in a database error; there is no
    retry and no skipping of a row.  A run that ends otherwise, normally
    or in an exception of pandas or of Python, has had all its statements
    accepted. *)
Theorem log_file_part_stops_at_first_refusal
    (log : list LogData.row) (s s' : Db.Session) (r : Db.result unit) :
  process_log_file log s = (r, s') ->
  stops_at_refusal s r s'.
Proof.
  revert s s' r. change (fail_fast (process_log_file log)).
  unfold process_log_file.
  apply fail_fast_bind; [ apply fail_fast_of_option | intros rows ].
  apply fail_fast_bind; [ apply fail_fast_first_entry | intros _ ].
  apply fail_fast_bind; [ apply fail_fast_execute_values | intros _ ].
  apply fail_fast_bind; [ apply fail_fast_commit | intros _ ].
  apply fail_fast_bind; [ apply fail_fast_execute_values | intros _ ].
  apply fail_fast_bind; [ apply fail_fast_commit | intros _ ].
  apply fail_fast_songplay_loop.
Qed.

(** Two play events against the server that refuses the second songplay
    insert: that insert is the last of the nine statements sent. *)
Lemma log_file_part_stops_at_first_refusal_witness :
  let run :=
    process_log_file [Sample.event0; Sample.home_view; Sample.catalog_play]
                     Sample.failing_session in
  fst run = Db.Raise Db.DatabaseError /\
  List.length (Db.calls (snd run)) = 9%nat /\
  stops_at_refusal Sample.failing_session (fst run) (snd run).
Proof.
  split; [ vm_compute; reflexivity | ]. split; [ vm_compute; reflexivity | ].
  apply (log_file_part_stops_at_first_refusal
           [Sample.event0; Sample.home_view; Sample.catalog_play]).
  apply surjective_pairing.
Defined.


Section Frame.

Lemma same_dimensions_refl (tb : Db.Tables) : same_dimensions tb tb.
Proof. now repeat split. Qed.

Lemma same_dimensions_trans (tb1 tb2 tb3 : Db.Tables) :
  same_dimensions tb1 tb2 -> same_dimensions tb2 tb3 ->
  same_dimensions tb1 tb3.
Proof.
  unfold same_dimensions. intros (S1 & A1 & T1 & U1) (S2 & A2 & T2 & U2).
  repeat split; congruence.
Qed.

(** One pass of the loop, whatever its outcome: the open transaction
    has the same dimension tables and at most one more fact row; what is
    committed is what was committed before, or the tables of the open
    transaction. *)
Lemma songplay_step_frame (row : LogData.row) (s s' : Db.Session)
    (r : Db.result unit) :
  songplay_step row s = (r, s') ->
  same_dimensions (Db.working s) (Db.working s') /\
  (exists added, Db.songplays (Db.working s') =
                 (Db.songplays (Db.working s) ++ added)%list /\
                 (List.length added <= 1)%nat) /\
  (Db.committed s' = Db.committed s \/ Db.committed s' = Db.working s').
Proof.
  rewrite songplay_step_run. cbv zeta.
  repeat match goal with
         | |- context [if ?c then _ else _] => destruct c
         end;
    intros [= <- <-];
    cbn [after_step Db.working Db.committed Db.record_call
         Db.with_songplays Db.songplays];
    (split; [ apply same_dimensions_refl || now repeat split | ]);
    (split; [ | auto ]).
  all: try (exists []; rewrite app_nil_r; split; [ reflexivity | cbn; lia ]).
  all: eexists; split; [ reflexivity | cbn; lia ].
Qed.

End Frame.

(** X8. Whatever its outcome, the songplay loop changes no dimension
    table (songs, artists, time, users): in the open transaction it only
    appends fact rows to songplays, at most one per event, and what it
    leaves committed is either what was committed before or such a
    state. *)
Theorem songplay_loop_changes_songplays_only
    (df : list LogData.row) (s s' : Db.Session) (r : Db.result unit) :
  songplay_loop df s = (r, s') ->
  same_dimensions (Db.working s) (Db.working s') /\
  (exists added : list songplay_tuple,
     Db.songplays (Db.working s') =
       (Db.songplays (Db.working s) ++ added)%list /\
     (List.length added <= List.length df)%nat) /\
  (Db.committed s' = Db.committed s \/
   same_dimensions (Db.working s) (Db.committed s') /\
   exists added : list songplay_tuple,
     Db.songplays (Db.committed s') =
       (Db.songplays (Db.working s) ++ added)%list).
Proof.
  revert s. induction df as [ | row rest IH ]; intros s.
  - intros [= <- <-]. split; [ apply same_dimensions_refl | ].
    split; [ | now left ]. exists []. now rewrite app_nil_r.
  - rewrite songplay_loop_cons.
    destruct (songplay_step row s) as [[[] | e] s1] eqn:E1;
      apply songplay_step_frame in E1
        as (D1 & (added1 & P1 & L1) & C1).
    + intros H. destruct (IH _ H) as (D2 & (added2 & P2 & L2) & C2).
      split; [ now apply (same_dimensions_trans _ (Db.working s1)) | ].
      split.
      * exists (added1 ++ added2)%list. rewrite P2, P1, <- app_assoc.
        split; [ reflexivity | ]. rewrite length_app. cbn [List.length]. lia.
      * destruct C2 as [C2 | (D3 & added3 & P3)].
        -- rewrite C2. destruct C1 as [C1 | C1]; [ now left | right ].
           rewrite C1. split; [ exact D1 | now exists added1 ].
        -- right. split;
             [ now apply (same_dimensions_trans _ (Db.working s1)) | ].
           exists (added1 ++ added3)%list. now rewrite P3, P1, <- app_assoc.
    + intros [= <- <-]. split; [ exact D1 | ]. split.
      * exists added1. split; [ exact P1 | cbn [List.length]; lia ].
      * destruct C1 as [C1 | C1]; [ now left | right ].
        rewrite C1. split; [ exact D1 | now exists added1 ].
Qed.

(** Three play events against the server that refuses the second
    songplay insert. *)
Lemma songplay_loop_changes_songplays_only_witness :
  let df := [Sample.event0; Sample.catalog_play; Sample.event1] in
  let run := songplay_loop df Sample.failing_session in
  fst run = Db.Raise Db.DatabaseError /\
  same_dimensions (Db.working Sample.failing_session) (Db.working (snd run)) /\
  (exists added : list songplay_tuple,
     Db.songplays (Db.working (snd run)) =
       (Db.songplays (Db.working Sample.failing_session) ++ added)%list /\
     (List.length added <= List.length df)%nat) /\
  (Db.committed (snd run) = Db.committed Sample.failing_session \/
   same_dimensions (Db.working Sample.failing_session)
                   (Db.committed (snd run)) /\
   exists added : list songplay_tuple,
     Db.songplays (Db.committed (snd run)) =
       (Db.songplays (Db.working Sample.failing_session) ++ added)%list).
Proof.
  intros df run. split; [ vm_compute; reflexivity | ].
  apply (songplay_loop_changes_songplays_only df Sample.failing_session
           (snd run) (fst run)).
  apply surjective_pairing.
Defined.

(** ** The song-file part *)
Section SongFile.

Lemma song_send_pages_run {A : Type} (query : list A -> SongDb.statement)
    (apply : list A -> Db.Tables -> Db.Tables) (pages : list (list A)) :
  forall (s s' : SongDb.Session) (r : Db.result unit),
    SongDb.send_pages query apply pages s = (r, s') ->
    SongDb.committed s' = SongDb.committed s /\
    SongDb.rejects s' = SongDb.rejects s /\
    match r with
    | Db.Ok _ =>
        SongDb.working s' =
          fold_left (fun tb page => apply page tb) pages (SongDb.working s)
    | Db.Raise e => e = Db.DatabaseError
    end.
Proof.
  induction pages as [ | page pages IH ]; intros s s' r;
    cbn [SongDb.send_pages].
  - intros [= <- <-]. now repeat split.
  - unfold SongDb.bind, SongDb.send.
    destruct (SongDb.rejects s (SongDb.calls s) (query page)).
    + intros [= <- <-]. now repeat split.
    + intros H. apply IH in H as (C & J & W). now repeat split.
Qed.

Lemma song_conn_commit_run (s s' : SongDb.Session) (r : Db.result unit) :
  SongDb.conn_commit s = (r, s') ->
  SongDb.rejects s' = SongDb.rejects s /\
  SongDb.working s' = SongDb.working s /\
  match r with
  | Db.Ok _ => SongDb.committed s' = SongDb.working s
  | Db.Raise e => e = Db.DatabaseError /\ SongDb.committed s' = SongDb.committed s
  end.
Proof.
  unfold SongDb.conn_commit.
  destruct (SongDb.rejects s (SongDb.calls s) SongDb.commit);
    intros [= <- <-]; now repeat split.
Qed.

Lemma fold_pages_songs (pages : list (list song_tuple)) :
  forall tb : Db.Tables,
    let tb' :=
      fold_left
        (fun tb page =>
           SongDb.with_songs
             (fun table => fold_left SongDb.insert_song page table) tb)
        pages tb in
    Db.songs tb' =
      fold_left SongDb.insert_song (List.concat pages) (Db.songs tb) /\
    Db.artists tb' = Db.artists tb /\ Db.time tb' = Db.time tb /\
    Db.users tb' = Db.users tb /\ Db.songplays tb' = Db.songplays tb.
Proof.
  induction pages as [ | page pages IH ]; intros tb; cbn [fold_left List.concat].
  - now repeat split.
  - destruct (IH (SongDb.with_songs
                    (fun table => fold_left SongDb.insert_song page table) tb))
      as (S & A & T & U & P).
    cbv zeta. rewrite S, A, T, U, P, fold_left_app. now repeat split.
Qed.

Lemma fold_pages_artists (pages : list (list artist_tuple)) :
  forall tb : Db.Tables,
    let tb' :=
      fold_left
        (fun tb page =>
           SongDb.with_artists
             (fun table => fold_left SongDb.insert_artist page table) tb)
        pages tb in
    Db.artists tb' =
      fold_left SongDb.insert_artist (List.concat pages) (Db.artists tb) /\
    Db.songs tb' = Db.songs tb /\ Db.time tb' = Db.time tb /\
    Db.users tb' = Db.users tb /\ Db.songplays tb' = Db.songplays tb.
Proof.
  induction pages as [ | page pages IH ]; intros tb; cbn [fold_left List.concat].
  - now repeat split.
  - destruct (IH (SongDb.with_artists
                    (fun table => fold_left SongDb.insert_artist page table)
                    tb))
      as (A & S & T & U & P).
    cbv zeta. rewrite S, A, T, U, P, fold_left_app. now repeat split.
Qed.

End SongFile.

(** X9. The song-file part commits the songs before it sends the
    artists: whatever the server refuses, the time, users and songplays
    tables stay as committed before; a run that ends normally has
    committed the songs and the artists of the file and left nothing
    uncommitted; a run that ends in an exception ends in a database
    error, has committed no artist, and has committed either no song or
    all songs of the file, never some of them. *)
Theorem song_file_part_commits_songs_before_artists
    (df : list SongData.row) (s s' : SongDb.Session) (r : Db.result unit) :
  SongDb.working s = SongDb.committed s ->
  process_song_file df s = (r, s') ->
  Db.time (SongDb.committed s') = Db.time (SongDb.committed s) /\
  Db.users (SongDb.committed s') = Db.users (SongDb.committed s) /\
  Db.songplays (SongDb.committed s') = Db.songplays (SongDb.committed s) /\
  match r with
  | Db.Ok _ =>
      Db.songs (SongDb.committed s') = songs_loaded df (SongDb.committed s) /\
      Db.artists (SongDb.committed s') =
        artists_loaded df (SongDb.committed s) /\
      SongDb.working s' = SongDb.committed s'
  | Db.Raise e =>
      e = Db.DatabaseError /\
      Db.artists (SongDb.committed s') = Db.artists (SongDb.committed s) /\
      (Db.songs (SongDb.committed s') = Db.songs (SongDb.committed s) \/
       Db.songs (SongDb.committed s') = songs_loaded df (SongDb.committed s))
  end.
Proof.
  intros W. unfold process_song_file, SongDb.bind, songs_loaded, artists_loaded.
  unfold SongDb.execute_values_song, SongDb.execute_values_artist,
    SongDb.execute_values.
  destruct (SongDb.send_pages SongDb.song_table_insert _ _ s)
    as [[[] | e1] s1] eqn:E1;
    apply song_send_pages_run in E1 as (C1 & J1 & W1).
  2: { intros [= <- <-]. rewrite C1. now repeat split; auto. }
  destruct (fold_pages_songs (Db.paginate (song_tuples df)) (SongDb.working s))
    as (S1 & A1 & T1 & U1 & P1). cbv zeta in S1, A1, T1, U1, P1.
  rewrite <- W1, concat_paginate, W in S1. rewrite <- W1, W in A1, T1, U1, P1.
  destruct (SongDb.conn_commit s1) as [[[] | e2] s2] eqn:E2;
    apply song_conn_commit_run in E2 as (J2 & W2 & C2).
  2: { destruct C2 as [-> C2]. intros [= <- <-]. rewrite C2, C1.
       now repeat split; auto. }
  destruct (SongDb.send_pages SongDb.artist_table_insert _ _ s2)
    as [[[] | e3] s3] eqn:E3;
    apply song_send_pages_run in E3 as (C3 & J3 & W3).
  2: { intros [= <- <-]. rewrite C3, C2. subst e3.
       repeat split; auto. }
  destruct (fold_pages_artists (Db.paginate (artist_tuples df))
              (SongDb.working s2))
    as (A3 & S3 & T3 & U3 & P3). cbv zeta in A3, S3, T3, U3, P3.
  rewrite <- W3, concat_paginate, W2 in A3. rewrite <- W3, W2 in S3, T3, U3, P3.
  destruct (SongDb.conn_commit s3) as [[[] | e4] s4] eqn:E4;
    apply song_conn_commit_run in E4 as (J4 & W4 & C4).
  - intros [= <- <-]. rewrite C4.
    repeat match goal with |- _ /\ _ => split end; try congruence.
  - destruct C4 as [-> C4]. intros [= <- <-]. rewrite C4, C3, C2.
    repeat split; auto.
Qed.

(** The song file of the notebook against a server that refuses every
    artist insert: the song is committed, no artist is. *)
Lemma song_file_part_commits_songs_before_artists_witness :
  let run := process_song_file [Sample.song] SongSample.failing_session in
  fst run = Db.Raise Db.DatabaseError /\
  Db.songs (SongDb.committed (snd run)) =
    [(Some "SONHOTT12A8C13493C", Some "Something Girls",
      Some "AR7G5I41187FB4CE6C", 1982, 233.40363%float)] /\
  Db.artists (SongDb.committed (snd run)) = [] /\
  Db.time (SongDb.committed (snd run)) =
    Db.time (SongDb.committed SongSample.failing_session) /\
  Db.users (SongDb.committed (snd run)) =
    Db.users (SongDb.committed SongSample.failing_session) /\
  Db.songplays (SongDb.committed (snd run)) =
    Db.songplays (SongDb.committed SongSample.failing_session).
Proof.
  intros run.
  split; [ vm_compute; reflexivity | ]. split; [ vm_compute; reflexivity | ].
  split; [ vm_compute; reflexivity | ].
  pose proof (song_file_part_commits_songs_before_artists [Sample.song]
                SongSample.failing_session (snd run) (fst run) eq_refl
                (surjective_pairing run)) as (T & U & P & _).
  now repeat split.
Defined.

Section SongFileRun.

Lemma song_send_pages_completes {A : Type} (query : list A -> SongDb.statement)
    (apply : list A -> Db.Tables -> Db.Tables) (pages : list (list A)) :
  forall s : SongDb.Session,
    song_accepts_all s ->
    exists s',
      SongDb.send_pages query apply pages s = (Db.Ok tt, s') /\
      SongDb.calls s' = (SongDb.calls s ++ map query pages)%list /\
      SongDb.rejects s' = SongDb.rejects s.
Proof.
  induction pages as [ | page pages IH ]; intros s Acc;
    cbn [SongDb.send_pages map].
  - exists s. rewrite app_nil_r. now repeat split.
  - unfold SongDb.bind, SongDb.send. rewrite Acc.
    destruct (IH (SongDb.mkSession (SongDb.committed s)
                    (apply page (SongDb.working s))
                    (SongDb.calls s ++ [query page]) (SongDb.rejects s)))
      as (s' & R & L & J).
    + intros history q. apply Acc.
    + exists s'. cbn [SongDb.calls SongDb.rejects] in L, J.
      rewrite <- app_assoc in L. now repeat split.
Qed.

End SongFileRun.

(** X10. With a server that refuses nothing the song-file part ends
    normally and has sent, in this order: the inserts of the song rows,
    one for every page of at most 100 rows, a commit, the inserts of the
    artist rows, page by page, and a commit; both batches have one row
    for every record of the file. *)
Theorem song_file_part_statements_in_order
    (df : list SongData.row) (s : SongDb.Session) :
  song_accepts_all s ->
  exists s' : SongDb.Session,
    process_song_file df s = (Db.Ok tt, s') /\
    SongDb.calls s' =
      (SongDb.calls s
       ++ map SongDb.song_table_insert (Db.paginate (song_tuples df))
       ++ [SongDb.commit]
       ++ map SongDb.artist_table_insert (Db.paginate (artist_tuples df))
       ++ [SongDb.commit])%list /\
    List.concat (Db.paginate (song_tuples df)) = song_tuples df /\
    List.concat (Db.paginate (artist_tuples df)) = artist_tuples df /\
    List.length (song_tuples df) = List.length df /\
    List.length (artist_tuples df) = List.length df.
Proof.
  intros Acc. unfold process_song_file, SongDb.bind.
  unfold SongDb.execute_values_song, SongDb.execute_values_artist,
    SongDb.execute_values.
  destruct (song_send_pages_completes SongDb.song_table_insert
              (fun rows =>
                 SongDb.with_songs
                   (fun table => fold_left SongDb.insert_song rows table))
              (Db.paginate (song_tuples df)) s Acc) as (s1 & R1 & L1 & J1).
  rewrite R1. unfold SongDb.conn_commit at 1.
  assert (A1 : song_accepts_all s1)
    by (intros history q; rewrite J1; apply Acc).
  rewrite A1.
  set (s2 := SongDb.mkSession (SongDb.working s1) (SongDb.working s1)
               (SongDb.calls s1 ++ [SongDb.commit]) (SongDb.rejects s1)).
  assert (A2 : song_accepts_all s2) by exact A1.
  destruct (song_send_pages_completes SongDb.artist_table_insert
              (fun rows =>
                 SongDb.with_artists
                   (fun table => fold_left SongDb.insert_artist rows table))
              (Db.paginate (artist_tuples df)) s2 A2) as (s3 & R3 & L3 & J3).
  rewrite R3. unfold SongDb.conn_commit.
  assert (A3 : song_accepts_all s3)
    by (intros history q; rewrite J3; apply A2).
  rewrite A3. eexists. split; [ reflexivity | ].
  cbn [SongDb.calls]. rewrite L3. subst s2. cbn [SongDb.calls]. rewrite L1.
  split; [ now rewrite <- !app_assoc | ].
  split; [ apply concat_paginate | ]. split; [ apply concat_paginate | ].
  unfold song_tuples, song_df, artist_tuples, artist_df.
  now rewrite !length_map.
Qed.

(** The song file of the notebook on empty tables. *)
Lemma song_file_part_statements_in_order_witness :
  exists s' : SongDb.Session,
    process_song_file [Sample.song] SongSample.session = (Db.Ok tt, s') /\
    SongDb.calls s' =
      [SongDb.song_table_insert
         [(Some "SONHOTT12A8C13493C", Some "Something Girls",
           Some "AR7G5I41187FB4CE6C", 1982, 233.40363%float)];
       SongDb.commit;
       SongDb.artist_table_insert
         [(Some "AR7G5I41187FB4CE6C", Some "Adam Ant", Some "London, England",
           nan, nan)];
       SongDb.commit].
Proof.
  destruct (song_file_part_statements_in_order [Sample.song]
              SongSample.session) as (s' & R & L & _).
  - intros history q. reflexivity.
  - exists s'. split; [ exact R | exact L ].
Defined.
